(** * x402 VRF NFT example: the payment gate and the fulfillment ledger

    Three programs are embedded here.

    - [Gate]: the route [app.post('/request-mint')] of
      [example/vrfnft/vrf-resource-server.ts].  The handler is written in a
      small free monad over the calls it awaits (axios, viem, console); running
      it against a world of outcomes yields the call trace and the response.
    - [VRFNFT]: the callback [fulfillRandomWords] of
      [chainlink-vrf-nft/contract/VRFNFT.sol], a function from contract storage
      to either a new storage or a revert, with [requestNFT], the views and the
      owner's functions of the same contract.
    - [SettleRoute]: [POST] of [site/app/facilitator/settle/route.ts]. *)

From Stdlib Require Import ZArith List String Ascii Bool Lia PrimFloat Uint63 DecimalString.
From stdpp Require Import gmap strings.
Import ListNotations.

Local Open Scope Z_scope.

(** ** JavaScript values *)

Module JS.

(** What [JSON.parse] can return and what [c.json] can serialise.  An object is
    kept as the list of its members in insertion order. *)
#[local] Unset Elimination Schemes.
Inductive JValue : Type :=
| JNull
| JBool (b : bool)
| JNum (f : float)
| JStr (s : string)
| JArr (items : list JValue)
| JObj (members : list (string * JValue)).
#[local] Set Elimination Schemes.

(** The result of an expression: [None] is [undefined]. *)
Definition JsResult : Type := option JValue.

(** A later member of the same name replaces an earlier one, in an object
    literal as in [JSON.parse]. *)
Fixpoint member (key : string) (members : list (string * JValue)) : JsResult :=
  match members with
  | [] => None
  | (k, v) :: rest =>
      match member key rest with
      | Some v' => Some v'
      | None => if String.eqb k key then Some v else None
      end
  end.

(** ToBoolean.  [JSON.parse] never yields NaN, but the test is written out. *)
Definition truthy (r : JsResult) : bool :=
  match r with
  | None => false
  | Some JNull => false
  | Some (JBool b) => b
  | Some (JNum f) => negb (PrimFloat.eqb f 0 || PrimFloat.is_nan f)
  | Some (JStr s) => negb (String.eqb s "")
  | Some (JArr _) => true
  | Some (JObj _) => true
  end.

(** [v.key] on a value that is neither [null] nor [undefined].  The server only
    reads the names scheme, networkId, payload, authorization, from, isValid,
    invalidReason, success and error, none of which a string, number, boolean,
    array or object inherits from its prototype; so only an object can
    answer, with a member of its own. *)
Definition read (v : JValue) (key : string) : JsResult :=
  match v with
  | JObj members => member key members
  | _ => None
  end.

(** [r?.key]: [undefined] when [r] is [null] or [undefined]. *)
Definition opt_chain (r : JsResult) (key : string) : JsResult :=
  match r with
  | None | Some JNull => None
  | Some v => read v key
  end.

(** [r !== s] for a string constant [s]. *)
Definition strict_neq_string (r : JsResult) (s : string) : bool :=
  match r with
  | Some (JStr s') => negb (String.eqb s' s)
  | _ => true
  end.

(** [a || b] *)
Definition or_else (a b : JsResult) : JsResult :=
  if truthy a then a else b.

(** An object literal handed to [c.json] or to axios: [JSON.stringify] omits
    the members whose value is [undefined]. *)
Fixpoint literal (fields : list (string * JsResult)) : list (string * JValue) :=
  match fields with
  | [] => []
  | (k, Some v) :: rest => (k, v) :: literal rest
  | (_, None) :: rest => literal rest
  end.

(** A thrown [Error]: its message and, for an axios error, the body of the
    response when there was one ([err.response?.data]). *)
Record JsError : Type := mkError {
  message : string;
  response_data : JsResult
}.

Definition Error (msg : string) : JsError := mkError msg None.

(** Number to string, for the integers a template literal interpolates. *)
Definition decimal (n : Z) : string :=
  NilZero.string_of_uint (N.to_uint (Z.to_N n)).

End JS.

(** ** Base64 *)

Module Base64.

Definition alphabet : list ascii :=
  list_ascii_of_string "ABCDEFGHIJKLMNOPQRSTUVWXYZabcdefghijklmnopqrstuvwxyz0123456789+/".

Definition digit (n : N) : ascii := nth (N.to_nat n) alphabet "="%char.

(** Three bytes give four digits; a last group of one or two bytes is padded
    with [=].  This is [Base64.encode] of OpenZeppelin and the encoding the
    X-PAYMENT header carries. *)
Fixpoint encode_bytes (bytes : list N) : list ascii :=
  match bytes with
  | [] => []
  | [a] =>
      [ digit (N.shiftr a 2); digit (N.shiftl (N.land a 3) 4); "="; "=" ]%char
  | [a; b] =>
      [ digit (N.shiftr a 2);
        digit (N.lor (N.shiftl (N.land a 3) 4) (N.shiftr b 4));
        digit (N.shiftl (N.land b 15) 2); "="%char ]
  | a :: b :: c :: rest =>
      digit (N.shiftr a 2)
      :: digit (N.lor (N.shiftl (N.land a 3) 4) (N.shiftr b 4))
      :: digit (N.lor (N.shiftl (N.land b 15) 2) (N.shiftr c 6))
      :: digit (N.land c 63)
      :: encode_bytes rest
  end.

Definition encode (data : string) : string :=
  string_of_list_ascii (encode_bytes (map N_of_ascii (list_ascii_of_string data))).

(** The value of a digit, in the standard alphabet or the URL-safe one. *)
Definition sextet (c : ascii) : option N :=
  let n := N_of_ascii c in
  if (65 <=? n)%N && (n <=? 90)%N then Some (n - 65)%N
  else if (97 <=? n)%N && (n <=? 122)%N then Some (n - 71)%N
  else if (48 <=? n)%N && (n <=? 57)%N then Some (n + 4)%N
  else if (n =? 43)%N || (n =? 45)%N then Some 62%N
  else if (n =? 47)%N || (n =? 95)%N then Some 63%N
  else None.

(** The digits up to the first [=]; any other character is passed over. *)
Fixpoint sextets (cs : list ascii) : list N :=
  match cs with
  | [] => []
  | c :: rest =>
      if Ascii.eqb c "="%char then []
      else match sextet c with
           | Some n => n :: sextets rest
           | None => sextets rest
           end
  end.

Fixpoint decode_sextets (ns : list N) : list N :=
  match ns with
  | a :: b :: c :: d :: rest =>
      N.lor (N.shiftl a 2) (N.shiftr b 4)
      :: N.lor (N.shiftl (N.land b 15) 4) (N.shiftr c 2)
      :: N.lor (N.shiftl (N.land c 3) 6) d
      :: decode_sextets rest
  | [a; b; c] =>
      [ N.lor (N.shiftl a 2) (N.shiftr b 4);
        N.lor (N.shiftl (N.land b 15) 4) (N.shiftr c 2) ]
  | [a; b] => [ N.lor (N.shiftl a 2) (N.shiftr b 4) ]
  | _ => []
  end.

Definition decode (text : string) : string :=
  string_of_list_ascii (map ascii_of_N (decode_sextets (sextets (list_ascii_of_string text)))).

(** The bit identities that make decoding undo encoding, as a check on a
    pair of bytes. *)
Definition pair_ok (a b : N) : bool :=
  (N.shiftr a 2 <? 64)%N
  && (N.lor (N.shiftl (N.land a 3) 4) (N.shiftr b 4) <? 64)%N
  && (N.lor (N.shiftl (N.land a 15) 2) (N.shiftr b 6) <? 64)%N
  && (N.land a 63 <? 64)%N
  && (N.shiftl (N.land a 3) 4 <? 64)%N
  && (N.shiftl (N.land a 15) 2 <? 64)%N
  && (N.lor (N.shiftl (N.shiftr a 2) 2)
        (N.shiftr (N.lor (N.shiftl (N.land a 3) 4) (N.shiftr b 4)) 4) =? a)%N
  && (N.land (N.lor (N.shiftl (N.land a 3) 4) (N.shiftr b 4)) 15 =? N.shiftr b 4)%N
  && (N.shiftr (N.lor (N.shiftl (N.land a 15) 2) (N.shiftr b 6)) 2 =? N.land a 15)%N
  && (N.lor (N.shiftl (N.shiftr a 4) 4) (N.land a 15) =? a)%N
  && (N.lor (N.shiftl (N.land (N.lor (N.shiftl (N.land a 15) 2) (N.shiftr b 6)) 3) 6)
        (N.land b 63) =? b)%N
  && (N.lor (N.shiftl (N.shiftr a 2) 2) (N.shiftr (N.shiftl (N.land a 3) 4) 4) =? a)%N
  && (N.shiftr (N.shiftl (N.land a 15) 2) 2 =? N.land a 15)%N.

End Base64.

(** ** The resource server *)

Module Gate.
Import JS.

(** *** What the handler awaits *)

(** A promise once awaited: its value, or the error the [await] throws. *)
Inductive Settled (A : Type) : Type :=
| Fulfilled (a : A)
| Rejected (e : JsError).
Arguments Fulfilled {A} a.
Arguments Rejected {A} e.

(** What a console call is given.  A template literal is recorded as its
    pieces; how the console renders them is not the handler's business. *)
Inductive LogPiece : Type :=
| Txt (s : string)
| Val (v : JsResult)
| Err (e : JsError).

(** The argument of viem's [writeContract]. *)
Record WriteContractRequest : Type := mkWrite {
  address : string;
  abi : list string;
  functionName : string;
  args : list JsResult;
  value : Z
}.

(** The calls of the handler, indexed by what they give back.  [axios_post]
    gives the [data] of the response, or rejects (transport error, non-2xx
    status); [writeContract] gives the transaction hash, or rejects. *)
Inductive Event : Type -> Type :=
| console_log (pieces : list LogPiece) : Event unit
| console_error (pieces : list LogPiece) : Event unit
| axios_post (url : string) (body : JValue) : Event (Settled JValue)
| writeContract (req : WriteContractRequest) : Event (Settled string).

(** A handler: a finite tree of calls ending in a result. *)
Inductive Prog (R : Type) : Type :=
| Ret (r : R)
| Vis {X : Type} (e : Event X) (k : X -> Prog R).
Arguments Ret {R} r.
Arguments Vis {R X} e k.

Notation "'let*' x ':=' 'await' e 'in' k" := (Vis e (fun x => k))
  (at level 10, x name, e at level 99, k at level 200).
Notation "'do' e ;; k" := (Vis e (fun _ : unit => k))
  (at level 10, e at level 99, k at level 200).

(** The outside world: an outcome for every call.  One request calls each
    endpoint at most once, so a world without memory covers every behaviour of
    the facilitator and of the chain. *)
Definition World : Type := forall X : Type, Event X -> X.

(** One call of the trace, with what it gave back. *)
Inductive Entry : Type :=
| Called {X : Type} (e : Event X) (x : X).

Fixpoint run {R : Type} (w : World) (p : Prog R) : list Entry * R :=
  match p with
  | Ret r => ([], r)
  | Vis e k =>
      let x := w _ e in
      let (trace, r) := run w (k x) in
      (Called e x :: trace, r)
  end.

(** *** The platform *)

(** Node, viem and the chain configuration, which the repository imports. *)
Class Platform : Type := {
  (** [Buffer.from(s, 'base64').toString('utf-8')] *)
  Buffer_from_base64_toString_utf8 : string -> string;
  (** [JSON.parse(s)]: the value, or the [SyntaxError] it throws *)
  JSON_parse : string -> JsError + JValue;
  (** the message of the [TypeError] of reading a property of [null] *)
  null_read_message : string -> string;
  (** [baseSepolia.id.toString()] *)
  NETWORK_ID : string;
  (** viem's [parseEther] *)
  parseEther : string -> Z
}.

(** *** Constants and setup *)

Definition PORT : Z := 4023.
Definition FACILITATOR_URL : string := "http://localhost:4020".
Definition NFT_CONTRACT_ADDRESS : string := "0xcD8841f9a8Dbc483386fD80ab6E9FD9656Da39A2".
Definition USDC_CONTRACT_ADDRESS : string := "0x036CbD53842c5426634e7929541eC2318f3dCF7e".
Definition REQUIRED_USDC_PAYMENT : string := "50000".
Definition PAYMENT_RECIPIENT_ADDRESS : string := "0x87002564F1C7b8F51e96CA7D545e43402BF0b4Ab".
Definition MINT_ETH_VALUE_STR : string := "0.01".
Definition SCHEME : string := "exact".

Definition nftContractAbi : list string :=
  ["function requestNFT(address _recipient) external payable returns (uint256 requestId)"%string].

Definition VERIFY_URL : string := FACILITATOR_URL +:+ "/verify".
Definition SETTLE_URL : string := FACILITATOR_URL +:+ "/settle".

(** A response of the route: [c.json(body, status)]. *)
Record Response : Type := mkResponse {
  status : Z;
  body : JValue
}.

Definition c_json (fields : list (string * JsResult)) (code : Z) : Response :=
  mkResponse code (JObj (literal fields)).

(** The calls that leave the server, with their outcome: the facilitator's
    [/verify], the mint transaction, the facilitator's [/settle]. *)
Inductive Call : Type :=
| Verify (outcome : Settled JValue)
| Mint (outcome : Settled string)
| Settle (outcome : Settled JValue).

Definition external (c : Entry) : option Call :=
  match c with
  | @Called X e x =>
      match e in Event X return X -> option Call with
      | axios_post url _ =>
          fun x => if String.eqb url VERIFY_URL then Some (Verify x)
                   else if String.eqb url SETTLE_URL then Some (Settle x)
                   else None
      | writeContract _ => fun x => Some (Mint x)
      | console_log _ | console_error _ => fun _ => None
      end x
  end.

Definition external_calls (trace : list Entry) : list Call := omap external trace.

Definition is_settle (c : Call) : bool :=
  match c with Settle _ => true | _ => false end.

Definition is_mint (c : Call) : bool :=
  match c with Mint _ => true | _ => false end.

(** How often the Settler is invoked in a trace. *)
Definition settle_count (trace : list Entry) : nat :=
  length (filter (fun c => is_settle c = true) (external_calls trace)).

Definition mint_count (trace : list Entry) : nat :=
  length (filter (fun c => is_mint c = true) (external_calls trace)).

(** What the handler writes with [console.error], in order. *)
Definition console_errors (trace : list Entry) : list (list LogPiece) :=
  omap (fun c => match c with
                 | Called (console_error pieces) _ => Some pieces
                 | Called _ _ => None
                 end) trace.

(** [verificationResult?.isValid], as the handler tests it. *)
Definition isValid (verificationResult : JValue) : bool :=
  truthy (opt_chain (Some verificationResult) "isValid").

(** [settlementResult?.success] *)
Definition success (settlementResult : JValue) : bool :=
  truthy (opt_chain (Some settlementResult) "success").

(** The world in which the facilitator and the chain answer as given. *)
Definition world (verify : Settled JValue) (mint : Settled string)
    (settle : Settled JValue) : World :=
  fun X e =>
    match e in Event X return X with
    | console_log _ | console_error _ => tt
    | axios_post url _ => if String.eqb url VERIFY_URL then verify else settle
    | writeContract _ => mint
    end.

Section Handler.
Context `{Platform}.

(** The payment details sent in 402 responses and to the facilitator. *)
Definition paymentDetailsRequired : JValue :=
  JObj
    [ ("scheme", JStr SCHEME);
      ("networkId", JStr NETWORK_ID);
      ("maxAmountRequired", JStr REQUIRED_USDC_PAYMENT);
      ("resource", JStr ("http://localhost:" +:+ decimal PORT +:+ "/request-mint"));
      ("description", JStr "Request to mint a VRF NFT");
      ("mimeType", JStr "application/json");
      ("payToAddress", JStr PAYMENT_RECIPIENT_ADDRESS);
      ("requiredDeadlineSeconds", JNum 60);
      ("usdcAddress", JStr USDC_CONTRACT_ADDRESS);
      ("outputSchema", JNull);
      ("extra", JNull) ]%string.

(** The body posted to [/verify] and to [/settle]. *)
Definition facilitator_body (paymentHeaderBase64 : string) : JValue :=
  JObj [ ("payload", JStr paymentHeaderBase64);
         ("details", paymentDetailsRequired) ]%string.

(** [paymentHeader.payload?.authorization?.from] *)
Definition authorization_from (paymentHeader : JValue) : JsResult :=
  opt_chain (opt_chain (read paymentHeader "payload") "authorization") "from".

(** Step 2, the body of the first [try]: decode, parse, basic validation.
    [inl] is the error the block throws. *)
Definition decode_payment_header (paymentHeaderBase64 : string) : JsError + JValue :=
  let paymentHeaderJson := Buffer_from_base64_toString_utf8 paymentHeaderBase64 in
  match JSON_parse paymentHeaderJson with
  | inl err => inl err
  | inr JNull => inl (Error (null_read_message "scheme"))
  | inr paymentHeader =>
      if strict_neq_string (read paymentHeader "scheme") SCHEME
         || strict_neq_string (read paymentHeader "networkId") NETWORK_ID
         || negb (truthy (authorization_from paymentHeader))
      then inl (Error "Invalid or incomplete payment header content.")
      else inr paymentHeader
  end.

Definition mint_request (recipientAddress : JsResult) : WriteContractRequest :=
  {| address := NFT_CONTRACT_ADDRESS;
     abi := nftContractAbi;
     functionName := "requestNFT";
     args := [recipientAddress];
     value := parseEther MINT_ETH_VALUE_STR |}.

(** Step 6: the 200 response. *)
Definition respond_ok (mintTxHash : string) : Prog Response :=
  do console_log [Txt "INFO ResourceServer: Responding 200 OK to client."] ;;
  Ret (c_json [ ("message", Some (JStr "NFT mint request initiated successfully."));
                ("nftMintTxHash", Some (JStr mintTxHash)) ] 200).

(** Step 5: settle with the facilitator.  Nothing of [settlementResult] is read
    after the block. *)
Definition settle_payment (paymentHeaderBase64 : string) (mintTxHash : string) : Prog Response :=
  do console_log [Txt ("INFO ResourceServer: Settling payment with Facilitator at " +:+ FACILITATOR_URL +:+ "...")] ;;
  let* settleResponse := await axios_post SETTLE_URL (facilitator_body paymentHeaderBase64) in
  match settleResponse with
  | Fulfilled settlementResult =>
      do console_log [Txt "INFO ResourceServer: Facilitator /settle response:"; Val (Some settlementResult)] ;;
      if negb (success settlementResult)
      then
        do console_error [Txt "WARN ResourceServer: Facilitator settlement failed:";
                       Val (opt_chain (Some settlementResult) "error")] ;;
        respond_ok mintTxHash
      else respond_ok mintTxHash
  | Rejected err =>
      do console_error [Txt "ERROR ResourceServer: Error calling facilitator /settle:";
                     Val (or_else (response_data err) (Some (JStr (message err))))] ;;
      respond_ok mintTxHash
  end.

(** Step 4: mint with the server's own wallet.  The first log line formats
    [recipientAddress] in a template literal; the conversion to a string is
    taken to succeed, as it does for the string that [XPaymentHeader] declares
    for [from].  (For an object whose own member [toString] is not callable
    the conversion throws inside the [try], and the handler answers with the
    500 of this step without calling [writeContract].) *)
Definition mint_nft (paymentHeaderBase64 : string) (paymentHeader : JValue) : Prog Response :=
  let recipientAddress := authorization_from paymentHeader in
  do console_log [Txt "INFO ResourceServer: Initiating NFT mint for "; Val recipientAddress;
               Txt (" on contract " +:+ NFT_CONTRACT_ADDRESS +:+ "...")] ;;
  let* sent := await writeContract (mint_request recipientAddress) in
  match sent with
  | Fulfilled mintTxHash =>
      do console_log [Txt ("INFO ResourceServer: NFT Mint transaction sent: " +:+ mintTxHash)] ;;
      settle_payment paymentHeaderBase64 mintTxHash
  | Rejected err =>
      do console_error [Txt "ERROR ResourceServer: Error sending NFT mint transaction:"; Err err] ;;
      Ret (c_json [ ("error", Some (JStr "Failed to initiate NFT minting."));
                    ("details", Some (JStr (message err))) ] 500)
  end.

(** Step 3: verify with the facilitator. *)
Definition verify_payment (paymentHeaderBase64 : string) (paymentHeader : JValue) : Prog Response :=
  do console_log [Txt ("INFO ResourceServer: Verifying payment with Facilitator at " +:+ FACILITATOR_URL +:+ "...")] ;;
  let* verifyResponse := await axios_post VERIFY_URL (facilitator_body paymentHeaderBase64) in
  match verifyResponse with
  | Fulfilled verificationResult =>
      do console_log [Txt "INFO ResourceServer: Facilitator /verify response:"; Val (Some verificationResult)] ;;
      if negb (isValid verificationResult)
      then
        do console_log [Txt "INFO ResourceServer: Payment verification failed. Responding 402."] ;;
        Ret (c_json [ ("paymentDetails", Some paymentDetailsRequired);
                      ("error", Some (JStr "Payment verification failed."));
                      ("details", or_else (opt_chain (Some verificationResult) "invalidReason")
                                          (Some (JStr "Unknown"))) ] 402)
      else mint_nft paymentHeaderBase64 paymentHeader
  | Rejected err =>
      do console_error [Txt "ERROR ResourceServer: Error calling facilitator /verify:";
                     Val (or_else (response_data err) (Some (JStr (message err))))] ;;
      Ret (c_json [ ("error", Some (JStr "Facilitator verification call failed.")) ] 500)
  end.

(** [app.post('/request-mint', ...)], given [c.req.header('X-PAYMENT')]. *)
Definition request_mint (X_PAYMENT : option string) : Prog Response :=
  do console_log [Txt "INFO ResourceServer: Received POST /request-mint"] ;;
  match X_PAYMENT with
  | None | Some EmptyString =>
      do console_log [Txt "INFO ResourceServer: No X-PAYMENT header found. Responding 402."] ;;
      Ret (c_json [ ("paymentDetails", Some paymentDetailsRequired);
                    ("error", Some (JStr "Payment required")) ] 402)
  | Some paymentHeaderBase64 =>
      match decode_payment_header paymentHeaderBase64 with
      | inl err =>
          do console_error [Txt "ERROR ResourceServer: Error decoding/parsing X-PAYMENT header:"; Err err] ;;
          Ret (c_json [ ("error", Some (JStr "Invalid payment header format."));
                        ("details", Some (JStr (message err))) ] 400)
      | inr paymentHeader => verify_payment paymentHeaderBase64 paymentHeader
      end
  end.

(** What step 5 writes with [console.error] for an outcome of [/settle]:
    nothing when the facilitator reports success. *)
Definition settle_log (settled : Settled JValue) : list (list LogPiece) :=
  match settled with
  | Fulfilled settlementResult =>
      if success settlementResult then []
      else [[Txt "WARN ResourceServer: Facilitator settlement failed:";
             Val (opt_chain (Some settlementResult) "error")]]
  | Rejected err =>
      [[Txt "ERROR ResourceServer: Error calling facilitator /settle:";
        Val (or_else (response_data err) (Some (JStr (message err))))]]
  end.

(** *** The envelope type

    [XPaymentHeader] and [ExactEvmPayload] as the source declares them; [Hex]
    is viem's type of strings that start with 0x.  The handler never checks a
    value against these types. *)

Definition is_string (r : JsResult) : bool :=
  match r with Some (JStr _) => true | _ => false end.

Definition is_number (r : JsResult) : bool :=
  match r with Some (JNum _) => true | _ => false end.

Definition is_Hex (r : JsResult) : bool :=
  match r with Some (JStr s) => String.prefix "0x" s | _ => false end.

Definition is_authorization (r : JsResult) : bool :=
  match r with
  | Some (JObj _ as a) =>
      is_Hex (read a "from") && is_Hex (read a "to") && is_string (read a "value")
      && is_string (read a "validAfter") && is_string (read a "validBefore")
      && is_Hex (read a "nonce") && is_string (read a "version")
  | _ => false
  end.

Definition is_ExactEvmPayload (r : JsResult) : bool :=
  match r with
  | Some (JObj _ as p) =>
      is_Hex (read p "signature") && is_authorization (read p "authorization")
  | _ => false
  end.

Definition is_XPaymentHeader (v : JValue) : bool :=
  match v with
  | JObj _ =>
      is_number (read v "x402Version") && is_string (read v "scheme")
      && is_string (read v "networkId") && is_ExactEvmPayload (read v "payload")
      && is_string (read v "resource")
  | _ => false
  end.

(** A header that is not base64(JSON) of a valid envelope, or that names
    another scheme or network. *)
Definition malformed (X_PAYMENT : string) : Prop :=
  match JSON_parse (Buffer_from_base64_toString_utf8 X_PAYMENT) with
  | inl _ => True
  | inr v =>
      is_XPaymentHeader v = false
      \/ read v "scheme" <> Some (JStr SCHEME)
      \/ read v "networkId" <> Some (JStr NETWORK_ID)
  end.

(** The headers step 2 throws on, with the error thrown: the text is not JSON,
    it is [null], or the basic validation refuses the value. *)
Inductive FailsDecoding (X_PAYMENT : string) : JsError -> Prop :=
| NotJson err :
    JSON_parse (Buffer_from_base64_toString_utf8 X_PAYMENT) = inl err ->
    FailsDecoding X_PAYMENT err
| IsNull :
    JSON_parse (Buffer_from_base64_toString_utf8 X_PAYMENT) = inr JNull ->
    FailsDecoding X_PAYMENT (Error (null_read_message "scheme"))
| WrongScheme v :
    JSON_parse (Buffer_from_base64_toString_utf8 X_PAYMENT) = inr v ->
    v <> JNull ->
    read v "scheme" <> Some (JStr SCHEME) ->
    FailsDecoding X_PAYMENT (Error "Invalid or incomplete payment header content.")
| WrongNetwork v :
    JSON_parse (Buffer_from_base64_toString_utf8 X_PAYMENT) = inr v ->
    v <> JNull ->
    read v "networkId" <> Some (JStr NETWORK_ID) ->
    FailsDecoding X_PAYMENT (Error "Invalid or incomplete payment header content.")
| NoPayer v :
    JSON_parse (Buffer_from_base64_toString_utf8 X_PAYMENT) = inr v ->
    v <> JNull ->
    truthy (authorization_from v) = false ->
    FailsDecoding X_PAYMENT (Error "Invalid or incomplete payment header content.").

(** *** The states a request ends in *)

(** The terminal states of one request: the external calls made, in order,
    what was written with [console.error], and the response sent. *)
Inductive Outcome : list Call -> list (list LogPiece) -> Response -> Prop :=
| Challenged :
    Outcome [] []
      (c_json [ ("paymentDetails", Some paymentDetailsRequired);
                ("error", Some (JStr "Payment required")) ] 402)
| BadHeader err :
    Outcome []
      [[Txt "ERROR ResourceServer: Error decoding/parsing X-PAYMENT header:"; Err err]]
      (c_json [ ("error", Some (JStr "Invalid payment header format."));
                ("details", Some (JStr (message err))) ] 400)
| VerifyThrew err :
    Outcome [Verify (Rejected err)]
      [[Txt "ERROR ResourceServer: Error calling facilitator /verify:";
        Val (or_else (response_data err) (Some (JStr (message err))))]]
      (c_json [ ("error", Some (JStr "Facilitator verification call failed.")) ] 500)
| Refused data :
    isValid data = false ->
    Outcome [Verify (Fulfilled data)] []
      (c_json [ ("paymentDetails", Some paymentDetailsRequired);
                ("error", Some (JStr "Payment verification failed."));
                ("details", or_else (opt_chain (Some data) "invalidReason")
                                    (Some (JStr "Unknown"))) ] 402)
| TriggerFailed data err :
    isValid data = true ->
    Outcome [Verify (Fulfilled data); Mint (Rejected err)]
      [[Txt "ERROR ResourceServer: Error sending NFT mint transaction:"; Err err]]
      (c_json [ ("error", Some (JStr "Failed to initiate NFT minting."));
                ("details", Some (JStr (message err))) ] 500)
| Served data mintTxHash settled :
    isValid data = true ->
    Outcome [Verify (Fulfilled data); Mint (Fulfilled mintTxHash); Settle settled]
      (settle_log settled)
      (c_json [ ("message", Some (JStr "NFT mint request initiated successfully."));
                ("nftMintTxHash", Some (JStr mintTxHash)) ] 200).

(** *** What leaves the server *)

(** A request the handler sends out: a POST with its body, or a contract
    write. *)
Inductive Sent : Type :=
| Post (url : string) (body : JValue)
| Write (req : WriteContractRequest).

Definition sent (c : Entry) : option Sent :=
  match c with
  | Called (axios_post url body) _ => Some (Post url body)
  | Called (writeContract req) _ => Some (Write req)
  | Called _ _ => None
  end.

Definition requests_sent (trace : list Entry) : list Sent := omap sent trace.

(** The three requests of a request that is served, for the header received
    and the value it decodes to. *)
Definition protocol_requests (paymentHeaderBase64 : string) (paymentHeader : JValue)
    : list Sent :=
  [ Post VERIFY_URL (facilitator_body paymentHeaderBase64);
    Write (mint_request (authorization_from paymentHeader));
    Post SETTLE_URL (facilitator_body paymentHeaderBase64) ].

Definition is_verify (c : Call) : bool :=
  match c with Verify _ => true | _ => false end.

Definition verify_count (trace : list Entry) : nat :=
  length (filter (fun c => is_verify c = true) (external_calls trace)).

End Handler.
End Gate.

(** ** A sample platform *)

(** The theorems on the handler hold for every [Platform]; the closed examples
    need one.  [Node.platform] follows Node on the headers the examples use:
    canonical base64 of ASCII text, and JSON without number fractions,
    exponents or unicode escapes (this parser refuses those, Node does not).
    Strings are byte strings, so decoding ASCII as UTF-8 changes nothing. *)
Module Node.
Import JS.

Definition dquote : ascii := "034"%char.
Definition backslash : ascii := "092"%char.

Definition is_ws (c : ascii) : bool :=
  let n := N_of_ascii c in
  (n =? 32)%N || (n =? 9)%N || (n =? 10)%N || (n =? 13)%N.

Fixpoint skip_ws (s : list ascii) : list ascii :=
  match s with
  | c :: rest => if is_ws c then skip_ws rest else s
  | [] => []
  end.

Definition is_digit (c : ascii) : bool :=
  let n := N_of_ascii c in (48 <=? n)%N && (n <=? 57)%N.

Definition unescape (c : ascii) : option ascii :=
  match c with
  | "b"%char => Some "008"%char
  | "f"%char => Some "012"%char
  | "n"%char => Some "010"%char
  | "r"%char => Some "013"%char
  | "t"%char => Some "009"%char
  | "/"%char => Some "/"%char
  | _ => if Ascii.eqb c dquote then Some dquote
         else if Ascii.eqb c backslash then Some backslash
         else None
  end.

(** After the opening quote: the characters up to the closing one. *)
Fixpoint string_body (s : list ascii) : option (string * list ascii) :=
  match s with
  | [] => None
  | c :: rest =>
      if Ascii.eqb c dquote then Some (EmptyString, rest)
      else if Ascii.eqb c backslash then
        match rest with
        | e :: rest' =>
            match unescape e, string_body rest' with
            | Some c', Some (str, r) => Some (String c' str, r)
            | _, _ => None
            end
        | [] => None
        end
      else if (N_of_ascii c <? 32)%N then None
      else match string_body rest with
           | Some (str, r) => Some (String c str, r)
           | None => None
           end
  end.

Fixpoint digits (s : list ascii) (acc : Z) : Z * list ascii :=
  match s with
  | c :: rest =>
      if is_digit c then digits rest (10 * acc + (Z.of_N (N_of_ascii c) - 48))
      else (acc, s)
  | [] => (acc, [])
  end.

(** An integer below 2^53 is a double exactly. *)
Definition float_of_Z (z : Z) : option float :=
  if z <? 2 ^ 53 then Some (PrimFloat.of_uint63 (Uint63.of_Z z)) else None.

Definition ends_number (r : list ascii) : bool :=
  match r with
  | c :: _ => negb (Ascii.eqb c "."%char || Ascii.eqb c "e"%char || Ascii.eqb c "E"%char)
  | [] => true
  end.

Definition unsigned (s : list ascii) : option (float * list ascii) :=
  match s with
  | "0"%char :: r =>
      if ends_number r && negb (match r with c :: _ => is_digit c | [] => false end)
      then Some (0%float, r) else None
  | c :: _ =>
      if is_digit c then
        let (z, r) := digits s 0 in
        match float_of_Z z with
        | Some f => if ends_number r then Some (f, r) else None
        | None => None
        end
      else None
  | [] => None
  end.

Definition number (s : list ascii) : option (JValue * list ascii) :=
  match s with
  | "-"%char :: r =>
      match unsigned r with
      | Some (f, r') => Some (JNum (PrimFloat.opp f), r')
      | None => None
      end
  | _ =>
      match unsigned s with
      | Some (f, r') => Some (JNum f, r')
      | None => None
      end
  end.

Fixpoint value (fuel : nat) (s : list ascii) {struct fuel} : option (JValue * list ascii) :=
  match fuel with
  | O => None
  | S fuel =>
      match skip_ws s with
      | "n" :: "u" :: "l" :: "l" :: r => Some (JNull, r)
      | "t" :: "r" :: "u" :: "e" :: r => Some (JBool true, r)
      | "f" :: "a" :: "l" :: "s" :: "e" :: r => Some (JBool false, r)
      | "[" :: r =>
          match skip_ws r with
          | "]" :: r' => Some (JArr [], r')
          | _ => elements fuel r []
          end
      | "{" :: r =>
          match skip_ws r with
          | "}" :: r' => Some (JObj [], r')
          | _ => members fuel r []
          end
      | c :: r =>
          if Ascii.eqb c dquote then
            match string_body r with
            | Some (str, r') => Some (JStr str, r')
            | None => None
            end
          else number (c :: r)
      | [] => None
      end%char
  end
with elements (fuel : nat) (s : list ascii) (acc : list JValue) {struct fuel}
  : option (JValue * list ascii) :=
  match fuel with
  | O => None
  | S fuel =>
      match value fuel s with
      | Some (v, r) =>
          match skip_ws r with
          | "," :: r' => elements fuel r' (v :: acc)
          | "]" :: r' => Some (JArr (rev (v :: acc)), r')
          | _ => None
          end%char
      | None => None
      end
  end
with members (fuel : nat) (s : list ascii) (acc : list (string * JValue)) {struct fuel}
  : option (JValue * list ascii) :=
  match fuel with
  | O => None
  | S fuel =>
      match skip_ws s with
      | q :: r =>
          if Ascii.eqb q dquote then
            match string_body r with
            | Some (key, r1) =>
                match skip_ws r1 with
                | ":" :: r2 =>
                    match value fuel r2 with
                    | Some (v, r3) =>
                        match skip_ws r3 with
                        | "," :: r4 => members fuel r4 ((key, v) :: acc)
                        | "}" :: r4 => Some (JObj (rev ((key, v) :: acc)), r4)
                        | _ => None
                        end
                    | None => None
                    end
                | _ => None
                end%char
            | None => None
            end
          else None
      | [] => None
      end
  end.

Definition SyntaxError : JsError := Error "Unexpected token in JSON".

Definition parse (text : string) : JsError + JValue :=
  let s := list_ascii_of_string text in
  match value (S (length s)) s with
  | Some (v, r) => match skip_ws r with [] => inr v | _ => inl SyntaxError end
  | None => inl SyntaxError
  end.

(** [parseEther] on a decimal with at most 18 fraction digits (viem rounds
    longer ones; here they are cut). *)
Definition parseEther (ether : string) : Z :=
  let (whole, r) := digits (list_ascii_of_string ether) 0 in
  match r with
  | "."%char :: fraction =>
      let (frac, _) := digits (firstn 18 fraction) 0 in
      whole * 10 ^ 18 + frac * 10 ^ (18 - Z.of_nat (length (firstn 18 fraction)))
  | _ => whole * 10 ^ 18
  end.

#[export] Instance platform : Gate.Platform := {|
  Gate.Buffer_from_base64_toString_utf8 := Base64.decode;
  Gate.JSON_parse := parse;
  Gate.null_read_message := fun key =>
    "Cannot read properties of null (reading '" +:+ key +:+ "')";
  Gate.NETWORK_ID := "84532";
  Gate.parseEther := parseEther
|}.

(** A complete envelope for the advertised terms. *)
Definition paid_header : string :=
  "eyJ4NDAyVmVyc2lvbiI6MSwic2NoZW1lIjoiZXhhY3QiLCJuZXR3b3JrSWQiOiI4NDUzMiIsInBheWxvYWQiOnsic2lnbmF0dXJlIjoiMHgxYiIsImF1dGhvcml6YXRpb24iOnsiZnJvbSI6IjB4MjA4QUE3MjJBY2E0MjM5OWVhQzUxOTJFRTc3OGU0RDQyZjRFNURlMyIsInRvIjoiMHg4NzAwMjU2NEYxQzdiOEY1MWU5NkNBN0Q1NDVlNDM0MDJCRjBiNEFiIiwidmFsdWUiOiI1MDAwMCIsInZhbGlkQWZ0ZXIiOiIwIiwidmFsaWRCZWZvcmUiOiIxOTAwMDAwMDAwIiwibm9uY2UiOiIweDAxIiwidmVyc2lvbiI6IjIifX0sInJlc291cmNlIjoiaHR0cDovL2xvY2FsaG9zdDo0MDIzL3JlcXVlc3QtbWludCJ9".

(** The same envelope with the value 40000, below the 50000 required. *)
Definition underpaid_header : string :=
  "eyJ4NDAyVmVyc2lvbiI6MSwic2NoZW1lIjoiZXhhY3QiLCJuZXR3b3JrSWQiOiI4NDUzMiIsInBheWxvYWQiOnsic2lnbmF0dXJlIjoiMHgxYiIsImF1dGhvcml6YXRpb24iOnsiZnJvbSI6IjB4MjA4QUE3MjJBY2E0MjM5OWVhQzUxOTJFRTc3OGU0RDQyZjRFNURlMyIsInRvIjoiMHg4NzAwMjU2NEYxQzdiOEY1MWU5NkNBN0Q1NDVlNDM0MDJCRjBiNEFiIiwidmFsdWUiOiI0MDAwMCIsInZhbGlkQWZ0ZXIiOiIwIiwidmFsaWRCZWZvcmUiOiIxOTAwMDAwMDAwIiwibm9uY2UiOiIweDAyIiwidmVyc2lvbiI6IjIifX0sInJlc291cmNlIjoiaHR0cDovL2xvY2FsaG9zdDo0MDIzL3JlcXVlc3QtbWludCJ9".

(** Only scheme, networkId and payload.authorization.from: no version, no
    signature, no amount, no resource. *)
Definition bare_header : string :=
  "eyJzY2hlbWUiOiJleGFjdCIsIm5ldHdvcmtJZCI6Ijg0NTMyIiwicGF5bG9hZCI6eyJhdXRob3JpemF0aW9uIjp7ImZyb20iOiIweGFiYyJ9fX0=".

(** An envelope for network 1 with an empty payload. *)
Definition other_network_header : string :=
  "eyJ4NDAyVmVyc2lvbiI6MSwic2NoZW1lIjoiZXhhY3QiLCJuZXR3b3JrSWQiOiIxIiwicGF5bG9hZCI6e319".

Definition verified : Gate.Settled JValue :=
  Gate.Fulfilled (JObj [("isValid", JBool true); ("invalidReason", JNull)]).

Definition insufficient : Gate.Settled JValue :=
  Gate.Fulfilled (JObj [("isValid", JBool false);
                        ("invalidReason", JStr "invalid_exact_evm_payload_authorization_value")]).

Definition minted : Gate.Settled string :=
  Gate.Fulfilled "0xeee74e323af3e981e60a6a3299757fa53a0f9fff8409d7df76165e8df38e7bf9".

Definition settled : Gate.Settled JValue :=
  Gate.Fulfilled (JObj [("success", JBool true); ("error", JNull); ("txHash", JStr "0x5e771e")]).

Definition unsettled : Gate.Settled JValue :=
  Gate.Fulfilled (JObj [("success", JBool false); ("error", JStr "invalid_nonce"); ("txHash", JNull)]).

Definition refused (msg : string) {A : Type} : Gate.Settled A :=
  Gate.Rejected (Error msg).

End Node.

(** ** Sample requests *)

Module Scenarios.
Import JS Gate Node.

(** Scenario A: a complete envelope, verified, minted and settled. *)
Definition served : list Entry * Response :=
  run (world verified minted settled) (request_mint (Some paid_header)).

(** Scenario C: the facilitator finds the amount insufficient. *)
Definition underpaid : list Entry * Response :=
  run (world insufficient minted settled) (request_mint (Some underpaid_header)).

(** Scenario D: the chain refuses the mint transaction. *)
Definition unfunded : list Entry * Response :=
  run (world verified (refused "insufficient funds for gas * price + value") settled)
      (request_mint (Some paid_header)).

(** Settlement fails after a successful mint. *)
Definition unpaid : list Entry * Response :=
  run (world verified minted unsettled) (request_mint (Some paid_header)).

(** The facilitator is down. *)
Definition unverified : list Entry * Response :=
  run (world (refused "connect ECONNREFUSED 127.0.0.1:4020") minted settled)
      (request_mint (Some paid_header)).

End Scenarios.

(** ** The facilitator's settle route *)

(** [POST] of [site/app/facilitator/settle/route.ts].  The route reads the
    environment, builds a signer, reads the request body, parses its details
    and calls [settle] of the x402 library; each of these may throw, and then
    the handler throws. *)
Module SettleRoute.
Import JS.

Section Route.
Context `{Gate.Platform}.

(** The wallet that [createSignerSepolia] gives and the details that
    [paymentDetailsSchema.parse] gives are the library's. *)
Variables Wallet PaymentDetails : Type.

(** What the route finds around it: the environment variable, and what each
    call gives or throws. *)
Record Env : Type := mkEnv {
  PRIVATE_KEY : option string;
  createSignerSepolia : string -> Gate.Settled Wallet;
  req_json : Gate.Settled JValue;
  paymentDetailsSchema_parse : JsResult -> Gate.Settled PaymentDetails;
  settle : Wallet -> JsResult -> PaymentDetails -> Gate.Settled JValue
}.

(** What the route has done, in order. *)
Inductive Step : Type :=
| LoggedError (msg : string)
| CreatedSigner (privateKey : string)
| ReadBody
| ParsedDetails (details : JsResult)
| CalledSettle (wallet : Wallet) (payload : JsResult) (details : PaymentDetails).

(** [POST(req)]: the steps taken, and the response returned or the error
    thrown. *)
Definition POST (env : Env) : list Step * Gate.Settled Gate.Response :=
  match PRIVATE_KEY env with
  | None | Some EmptyString =>
      ([LoggedError "PRIVATE_KEY environment variable is not set."],
       Gate.Fulfilled
         (Gate.mkResponse 500
            (JObj [("error", JStr "Server configuration error: Missing private key.")])))
  | Some privateKey =>
      match createSignerSepolia env privateKey with
      | Gate.Rejected err => ([CreatedSigner privateKey], Gate.Rejected err)
      | Gate.Fulfilled wallet =>
          match req_json env with
          | Gate.Rejected err => ([CreatedSigner privateKey; ReadBody], Gate.Rejected err)
          | Gate.Fulfilled JNull =>
              ([CreatedSigner privateKey; ReadBody],
               Gate.Rejected (Error (Gate.null_read_message "details")))
          | Gate.Fulfilled body =>
              match paymentDetailsSchema_parse env (read body "details") with
              | Gate.Rejected err =>
                  ([CreatedSigner privateKey; ReadBody; ParsedDetails (read body "details")],
                   Gate.Rejected err)
              | Gate.Fulfilled paymentDetails =>
                  ([CreatedSigner privateKey; ReadBody; ParsedDetails (read body "details");
                    CalledSettle wallet (read body "payload") paymentDetails],
                   match settle env wallet (read body "payload") paymentDetails with
                   | Gate.Fulfilled response =>
                       Gate.Fulfilled (Gate.mkResponse 200 response)
                   | Gate.Rejected err => Gate.Rejected err
                   end)
              end
          end
      end
  end.

Definition is_settle_step (step : Step) : bool :=
  match step with CalledSettle _ _ _ => true | _ => false end.

End Route.

(** A request to settle [Node.paid_header], on a server whose key is set and
    whose libraries all answer. *)
Definition settling : Env string JValue :=
  {| PRIVATE_KEY := Some "0x0123";
     createSignerSepolia := fun key => Gate.Fulfilled key;
     req_json := Gate.Fulfilled (@Gate.facilitator_body Node.platform Node.paid_header);
     paymentDetailsSchema_parse := fun details =>
       match details with
       | Some v => Gate.Fulfilled v
       | None => Gate.Rejected (Error "Required")
       end;
     settle := fun _ _ _ =>
       Gate.Fulfilled (JObj [("success", JBool true); ("error", JNull);
                             ("txHash", JStr "0x5e771e")]) |}.

End SettleRoute.

(** ** The NFT contract *)

Module VRFNFT.

(** [uint256] values are integers in [0, 2^256); [address] values are
    integers too, the zero address being 0. *)
Definition uint256_modulus : Z := 2 ^ 256.
Definition address : Type := Z.

(** String literals of the source that contain double quotes are written
    here with apostrophes (the source has none) and passed through [dq]. *)
Fixpoint dq (s : string) : string :=
  match s with
  | EmptyString => EmptyString
  | String c rest => String (if Ascii.eqb c "'"%char then "034"%char else c) (dq rest)
  end.

(** *** Storage *)

Record RequestStatus : Type := mkRequest {
  fulfilled : bool;
  exists_ : bool;
  randomWords : list Z
}.

Inductive Log : Type :=
| RequestSent (requestId : Z) (requester : address) (paid : Z)
| RequestFulfilled (requestId : Z) (words : list Z)
| NFTMinted (requestId : Z) (owner : address) (tokenId : Z) (characterIndex : Z)
| Transfer (from to : address) (tokenId : Z)
| MetadataUpdate (tokenId : Z).

(** The storage of the contract, with the part it inherits from ERC721 and
    ERC721URIStorage, and the events emitted so far.  A key that a mapping
    does not hold reads as the zero value. *)
Record Storage : Type := mkStorage {
  _tokenIdCounter : Z;
  s_tokenIdToCharacterIndex : gmap Z Z;
  s_requests : gmap Z RequestStatus;
  s_requestIdToRecipient : gmap Z address;
  _owners : gmap Z address;
  _balances : gmap address Z;
  _tokenURIs : gmap Z string;
  logs : list Log
}.

Definition s_characterImages : list string :=
  [ "https://ipfs.io/ipfs/QmTgqnhFBMkfT9s8PHKcdXBn1f5bG3Q5hmBaR4U6hoTvb1?filename=Chainlink_Elf.png";
    "https://ipfs.io/ipfs/QmZGQA92ri1jfzSu61JRaNQXYg1bLuM7p8YT83DzFA2KLH?filename=Chainlink_Knight.png";
    "https://ipfs.io/ipfs/QmW1toapYs7M29rzLXTENn3pbvwe8ioikX1PwzACzjfdHP?filename=Chainlink_Orc.png";
    "https://ipfs.io/ipfs/QmPMwQtFpEdKrUjpQJfoTeZS1aVSeuJT6Mof7uV29AcUpF?filename=Chainlink_Witch.png"
  ]%string.

Definition s_characterNames : list string :=
  [ "Chainlink Elf"; "Chainlink Knight"; "Chainlink Orc"; "Chainlink Witch" ]%string.

Definition _MINT_PRICE : Z := 10 ^ 14.

(** The storage the constructor leaves. *)
Definition deployed : Storage :=
  {| _tokenIdCounter := 0;
     s_tokenIdToCharacterIndex := ∅;
     s_requests := ∅;
     s_requestIdToRecipient := ∅;
     _owners := ∅;
     _balances := ∅;
     _tokenURIs := ∅;
     logs := [] |}.

Definition request (s : Storage) (requestId : Z) : RequestStatus :=
  default (mkRequest false false []) (s_requests s !! requestId).

Definition recipient (s : Storage) (requestId : Z) : address :=
  default 0 (s_requestIdToRecipient s !! requestId).

Definition ownerOf (s : Storage) (tokenId : Z) : address :=
  default 0 (_owners s !! tokenId).

Definition balanceOf (s : Storage) (owner : address) : Z :=
  default 0 (_balances s !! owner).

Definition characterIndexOf (s : Storage) (tokenId : Z) : Z :=
  default 0 (s_tokenIdToCharacterIndex s !! tokenId).

(** *** Transactions *)

(** A call either returns, with the storage it leaves, or reverts. *)
Inductive Result (A : Type) : Type :=
| Ok (a : A)
| Revert (reason : string).
Arguments Ok {A} a.
Arguments Revert {A} reason.

Definition Tx (A : Type) : Type := Storage -> Result (A * Storage).

Definition ret {A : Type} (a : A) : Tx A := fun s => Ok (a, s).

Definition bind {A B : Type} (m : Tx A) (f : A -> Tx B) : Tx B :=
  fun s => match m s with
           | Ok (a, s') => f a s'
           | Revert reason => Revert reason
           end.

Notation "'let!' x ':=' m 'in' k" := (bind m (fun x => k))
  (at level 10, x name, m at level 99, k at level 200).
Notation "m ';;;' k" := (bind m (fun _ : unit => k))
  (at level 100, k at level 200, right associativity).

Definition require (condition : bool) (reason : string) : Tx unit :=
  fun s => if condition then Ok (tt, s) else Revert reason.

Definition load {A : Type} (field : Storage -> A) : Tx A :=
  fun s => Ok (field s, s).

Definition store (update : Storage -> Storage) : Tx unit :=
  fun s => Ok (tt, update s).

Definition emit (event : Log) : Tx unit :=
  store (fun s => mkStorage (_tokenIdCounter s) (s_tokenIdToCharacterIndex s) (s_requests s)
                    (s_requestIdToRecipient s) (_owners s) (_balances s) (_tokenURIs s)
                    (logs s ++ [event])).

Definition set_tokenIdCounter (v : Z) (s : Storage) : Storage :=
  mkStorage v (s_tokenIdToCharacterIndex s) (s_requests s) (s_requestIdToRecipient s)
    (_owners s) (_balances s) (_tokenURIs s) (logs s).

Definition set_tokenIdToCharacterIndex (tokenId v : Z) (s : Storage) : Storage :=
  mkStorage (_tokenIdCounter s) (<[tokenId := v]> (s_tokenIdToCharacterIndex s)) (s_requests s)
    (s_requestIdToRecipient s) (_owners s) (_balances s) (_tokenURIs s) (logs s).

Definition set_request (requestId : Z) (v : RequestStatus) (s : Storage) : Storage :=
  mkStorage (_tokenIdCounter s) (s_tokenIdToCharacterIndex s) (<[requestId := v]> (s_requests s))
    (s_requestIdToRecipient s) (_owners s) (_balances s) (_tokenURIs s) (logs s).

Definition update_request (requestId : Z) (f : RequestStatus -> RequestStatus)
    (s : Storage) : Storage :=
  set_request requestId (f (request s requestId)) s.

Definition set_recipient (requestId : Z) (v : address) (s : Storage) : Storage :=
  mkStorage (_tokenIdCounter s) (s_tokenIdToCharacterIndex s) (s_requests s)
    (<[requestId := v]> (s_requestIdToRecipient s)) (_owners s) (_balances s) (_tokenURIs s) (logs s).

Definition delete_recipient (requestId : Z) (s : Storage) : Storage :=
  mkStorage (_tokenIdCounter s) (s_tokenIdToCharacterIndex s) (s_requests s)
    (delete requestId (s_requestIdToRecipient s)) (_owners s) (_balances s) (_tokenURIs s) (logs s).

Definition set_owner (tokenId : Z) (v : address) (s : Storage) : Storage :=
  mkStorage (_tokenIdCounter s) (s_tokenIdToCharacterIndex s) (s_requests s)
    (s_requestIdToRecipient s) (<[tokenId := v]> (_owners s)) (_balances s) (_tokenURIs s) (logs s).

Definition set_balance (owner : address) (v : Z) (s : Storage) : Storage :=
  mkStorage (_tokenIdCounter s) (s_tokenIdToCharacterIndex s) (s_requests s)
    (s_requestIdToRecipient s) (_owners s) (<[owner := v]> (_balances s)) (_tokenURIs s) (logs s).

Definition set_tokenURI (tokenId : Z) (v : string) (s : Storage) : Storage :=
  mkStorage (_tokenIdCounter s) (s_tokenIdToCharacterIndex s) (s_requests s)
    (s_requestIdToRecipient s) (_owners s) (_balances s) (<[tokenId := v]> (_tokenURIs s)) (logs s).

(** The storage after a transaction: a revert undoes every write. *)
Definition after {A : Type} (tx : Tx A) (s : Storage) : Storage :=
  match tx s with
  | Ok (_, s') => s'
  | Revert _ => s
  end.

Section Contract.

(** Modelled from the library: OpenZeppelin's [_checkOnERC721Received], the
    answer of the recipient to the acceptance call of [_safeMint] (true for an
    account without code).  The recipient is taken not to call back into this
    contract. *)
Variable checkOnERC721Received : address -> Z -> Result bool.

(** Modelled from the library: OpenZeppelin's ERC721 [_mint]. *)
Definition _mint (to : address) (tokenId : Z) : Tx unit :=
  require (negb (to =? 0)) "ERC721: mint to the zero address" ;;;
  let! owner := load (fun s => ownerOf s tokenId) in
  require (owner =? 0) "ERC721: token already minted" ;;;
  let! balance := load (fun s => balanceOf s to) in
  store (set_balance to ((balance + 1) mod uint256_modulus)) ;;;
  store (set_owner tokenId to) ;;;
  emit (Transfer 0 to tokenId).

(** The acceptance check of [_safeMint]: a refusal reverts, and so does a
    revert of the recipient, with its reason. *)
Definition acceptance (to : address) (tokenId : Z) : Tx unit :=
  fun s =>
    match checkOnERC721Received to tokenId with
    | Ok true => Ok (tt, s)
    | Ok false => Revert "ERC721: transfer to non ERC721Receiver implementer"
    | Revert reason => Revert reason
    end.

(** Modelled from the library: OpenZeppelin's ERC721 [_safeMint]. *)
Definition _safeMint (to : address) (tokenId : Z) : Tx unit :=
  _mint to tokenId ;;;
  acceptance to tokenId.

(** Modelled from the library: OpenZeppelin's ERC721URIStorage [_setTokenURI],
    which stores the URI of an existing token and then emits the ERC-4906
    event [MetadataUpdate]. *)
Definition _setTokenURI (tokenId : Z) (_tokenURI : string) : Tx unit :=
  let! owner := load (fun s => ownerOf s tokenId) in
  require (negb (owner =? 0)) "ERC721URIStorage: URI set of nonexistent token" ;;;
  store (set_tokenURI tokenId _tokenURI) ;;;
  emit (MetadataUpdate tokenId).

(** [array[index]] on a storage array of strings. *)
Definition element (array : list string) (index : Z) : Tx string :=
  fun s =>
    match (if 0 <=? index then nth_error array (Z.to_nat index) else None) with
    | Some x => Ok (x, s)
    | None => Revert "Panic(0x32)"
    end.

(** [requestNFT], given [msg.sender], [msg.value] and the two answers of the
    VRF wrapper: the price it quotes and the request id it assigns (or its
    revert). *)
Definition requestNFT (sender : address) (msg_value : Z) (vrfFee : Z)
    (requested : Result Z) (_recipient : address) : Tx Z :=
  require (negb (_recipient =? 0)) "Recipient cannot be zero address" ;;;
  require (vrfFee + _MINT_PRICE <? uint256_modulus) "Panic(0x11)" ;;;
  require (vrfFee + _MINT_PRICE <=? msg_value) "Insufficient payment (VRF fee + mint price)" ;;;
  let! requestId := (fun s => match requested with
                              | Ok id => Ok (id, s)
                              | Revert reason => Revert reason
                              end) in
  store (set_request requestId (mkRequest false true [])) ;;;
  store (set_recipient requestId _recipient) ;;;
  emit (RequestSent requestId sender vrfFee) ;;;
  ret requestId.

(** The JSON metadata of a token. *)
Definition metadata (characterName characterImageURI : string) (tokenId : Z) : string :=
  ("{" +:+ dq "'name': '" +:+ characterName +:+ " #" +:+ JS.decimal tokenId +:+ dq "',"
   +:+ dq "'description': 'A randomly generated VRFNFT character.',"
   +:+ dq "'image': '" +:+ characterImageURI +:+ dq "',"
   +:+ dq "'attributes': ["
   +:+ "{"
   +:+ dq "'trait_type': 'Character', "
   +:+ dq "'value': '" +:+ characterName +:+ dq "'"
   +:+ "}"
   +:+ "]"
   +:+ "}")%string.

(** The callback of the VRF wrapper. *)
Definition fulfillRandomWords (requestId : Z) (words : list Z) : Tx unit :=
  let! status := load (fun s => request s requestId) in
  require (exists_ status) "Request not found" ;;;
  require (negb (fulfilled status)) "Request already fulfilled" ;;;
  require (0 <? Z.of_nat (length words)) "No random words received" ;;;
  store (update_request requestId (fun r => mkRequest true (exists_ r) (randomWords r))) ;;;
  store (update_request requestId (fun r => mkRequest (fulfilled r) (exists_ r) words)) ;;;
  let! owner := load (fun s => recipient s requestId) in
  require (negb (owner =? 0)) "Recipient address cannot be zero" ;;;
  let characterIndex := hd 0 words mod Z.of_nat (length s_characterNames) in
  let! tokenId := load _tokenIdCounter in
  store (set_tokenIdCounter ((tokenId + 1) mod uint256_modulus)) ;;;
  store (set_tokenIdToCharacterIndex tokenId characterIndex) ;;;
  _safeMint owner tokenId ;;;
  let! characterName := element s_characterNames characterIndex in
  let! characterImageURI := element s_characterImages characterIndex in
  let json := Base64.encode (metadata characterName characterImageURI tokenId) in
  let finalTokenURI := ("data:application/json;base64," +:+ json)%string in
  _setTokenURI tokenId finalTokenURI ;;;
  store (delete_recipient requestId) ;;;
  emit (RequestFulfilled requestId words) ;;;
  emit (NFTMinted requestId owner tokenId characterIndex).


End Contract.

(** A recipient that accepts every token, as an account without code does. *)
Definition accepting : address -> Z -> Result bool := fun _ _ => Ok true.

(** *** Specifications of transactions *)

(** [wp R tx Q s]: when [tx] returns from [s], its value and storage satisfy
    [Q]; when it reverts, [R] holds.  With [True] for [R] this is partial
    correctness, with [False] it says that [tx] returns. *)
Definition wp {A : Type} (R : Prop) (tx : Tx A) (Q : A -> Storage -> Prop) (s : Storage) : Prop :=
  match tx s with
  | Ok (a, s') => Q a s'
  | Revert _ => R
  end.

(** The character a random word selects. *)
Definition selected (words : list Z) : Z :=
  hd 0 words mod Z.of_nat (length s_characterNames).

(** The storage a callback that returns leaves behind. *)
Record Fulfills (requestId : Z) (words : list Z) (s s' : Storage) : Prop := {
  was_recorded : exists_ (request s requestId) = true;
  was_pending : fulfilled (request s requestId) = false;
  has_words : words <> [];
  has_recipient : recipient s requestId <> 0;
  request_after : request s' requestId = mkRequest true true words;
  counter_after : _tokenIdCounter s' = (_tokenIdCounter s + 1) mod uint256_modulus;
  index_after :
    s_tokenIdToCharacterIndex s' =
    <[_tokenIdCounter s := selected words]> (s_tokenIdToCharacterIndex s);
  recipients_after :
    s_requestIdToRecipient s' = delete requestId (s_requestIdToRecipient s);
  owners_after : _owners s' = <[_tokenIdCounter s := recipient s requestId]> (_owners s);
  balances_after :
    _balances s' =
    <[recipient s requestId := (balanceOf s (recipient s requestId) + 1) mod uint256_modulus]>
      (_balances s);
  uri_after :
    exists characterName characterImageURI,
      nth_error s_characterNames (Z.to_nat (selected words)) = Some characterName
      /\ nth_error s_characterImages (Z.to_nat (selected words)) = Some characterImageURI
      /\ _tokenURIs s' =
         <[_tokenIdCounter s := "data:application/json;base64," +:+
             Base64.encode (metadata characterName characterImageURI (_tokenIdCounter s))]>
           (_tokenURIs s);
  logs_after :
    logs s' =
    logs s ++
      [ Transfer 0 (recipient s requestId) (_tokenIdCounter s);
        MetadataUpdate (_tokenIdCounter s);
        RequestFulfilled requestId words;
        NFTMinted requestId (recipient s requestId) (_tokenIdCounter s) (selected words) ]
}.

(** The storage after one request: id 77, for the recipient 1234, paid by 9. *)
Definition pending : Storage :=
  after (requestNFT 9 (10 ^ 16) 5 (Ok 77) 1234) deployed.

(** "A no-op that does not throw": the callback returns and leaves the
    storage as it was. *)
Definition returns_unchanged (hook : address -> Z -> Result bool) (requestId : Z)
    (words : list Z) (s : Storage) : Prop :=
  fulfillRandomWords hook requestId words s = Ok (tt, s).

(** *** Views and invariants *)

(** Modelled from the library: [tokenURI] of OpenZeppelin's ERC721URIStorage,
    with the empty base URI that ERC721 has by default. *)
Definition tokenURI (tokenId : Z) : Tx string :=
  let! owner := load (fun s => ownerOf s tokenId) in
  require (negb (owner =? 0)) "ERC721: invalid token ID" ;;;
  load (fun s => default EmptyString (_tokenURIs s !! tokenId)).

(** [getMintPrice] *)
Definition getMintPrice : Z := _MINT_PRICE.

(** No token id from the counter upwards has an owner. *)
Definition Fresh (s : Storage) : Prop :=
  0 <= _tokenIdCounter s
  /\ forall tokenId, _tokenIdCounter s <= tokenId -> ownerOf s tokenId = 0.

(** A request has a recipient exactly while it is recorded and not fulfilled. *)
Definition Correlated (s : Storage) : Prop :=
  forall requestId,
    recipient s requestId <> 0
    <-> exists_ (request s requestId) = true /\ fulfilled (request s requestId) = false.

(** *** Settings and funds

    The part of the contract state that the request and the callback do not
    write: the owner of Ownable, the VRF configuration and the native
    balance. *)

Record Settings : Type := mkSettings {
  _owner : address;
  _keyHash : Z;
  _callbackGasLimit : Z;
  _requestConfirmations : Z;
  balance : Z
}.

Definition _NUM_WORDS : Z := 1.

(** The constructor, called by [deployer]. *)
Definition constructor (deployer : address) (keyHash callbackGasLimit requestConfirmations : Z)
    : Settings :=
  mkSettings deployer keyHash callbackGasLimit requestConfirmations 0.

(** Modelled from the library: the modifier [onlyOwner] of OpenZeppelin's
    Ownable. *)
Definition onlyOwner {A : Type} (sender : address) (st : Settings) (body : Result A) : Result A :=
  if sender =? _owner st then body else Revert "Ownable: caller is not the owner".

Definition setCallbackGasLimit (sender : address) (callbackGasLimit : Z) (st : Settings)
    : Result Settings :=
  onlyOwner sender st
    (Ok (mkSettings (_owner st) (_keyHash st) callbackGasLimit (_requestConfirmations st)
           (balance st))).

Definition setRequestConfirmations (sender : address) (requestConfirmations : Z) (st : Settings)
    : Result Settings :=
  onlyOwner sender st
    (Ok (mkSettings (_owner st) (_keyHash st) (_callbackGasLimit st) requestConfirmations
           (balance st))).

Definition getRequestConfig (st : Settings) : Z * Z * Z * Z :=
  (_keyHash st, _callbackGasLimit st, _requestConfirmations st, _NUM_WORDS).

(** [withdrawNative]; [accepts to amount] is whether the call that sends
    [amount] to [to] succeeds.  It returns the settings left and the amount
    sent. *)
Definition withdrawNative (accepts : address -> Z -> bool) (sender to : address)
    (st : Settings) : Result (Settings * Z) :=
  onlyOwner sender st
    (let amount := balance st in
     if negb (0 <? amount) then Revert "No native balance to withdraw"
     else if negb (accepts to amount) then Revert "Native token transfer failed"
     else Ok (mkSettings (_owner st) (_keyHash st) (_callbackGasLimit st)
                (_requestConfirmations st) (balance st - amount), amount)).

End VRFNFT.

(** ** The gate: outcomes of a request *)

Module GateProofs.
Import JS Gate.

Section Outcomes.
Context `{Platform}.

Lemma run_Vis_trace {R X : Type} (w : World) (e : Event X) (k : X -> Prog R) :
  (run w (Vis e k)).1 = Called e (w X e) :: (run w (k (w X e))).1.
Proof. cbn [run]. destruct (run w (k (w X e))); reflexivity. Qed.

Lemma run_Vis_result {R X : Type} (w : World) (e : Event X) (k : X -> Prog R) :
  (run w (Vis e k)).2 = (run w (k (w X e))).2.
Proof. cbn [run]. destruct (run w (k (w X e))); reflexivity. Qed.

Lemma external_calls_cons (c : Entry) (trace : list Entry) :
  external_calls (c :: trace) =
  match external c with
  | Some x => x :: external_calls trace
  | None => external_calls trace
  end.
Proof. reflexivity. Qed.

Lemma console_errors_log (pieces : list LogPiece) (u : unit) (trace : list Entry) :
  console_errors (Called (console_log pieces) u :: trace) = console_errors trace.
Proof. reflexivity. Qed.

Lemma console_errors_error (pieces : list LogPiece) (u : unit) (trace : list Entry) :
  console_errors (Called (console_error pieces) u :: trace) = pieces :: console_errors trace.
Proof. reflexivity. Qed.

Lemma console_errors_post (url : string) (data : JValue) (x : Settled JValue)
    (trace : list Entry) :
  console_errors (Called (axios_post url data) x :: trace) = console_errors trace.
Proof. reflexivity. Qed.

Lemma console_errors_write (req : WriteContractRequest) (x : Settled string)
    (trace : list Entry) :
  console_errors (Called (writeContract req) x :: trace) = console_errors trace.
Proof. reflexivity. Qed.

Ltac run_step :=
  repeat (rewrite ?run_Vis_trace, ?run_Vis_result, ?external_calls_cons,
            ?console_errors_log, ?console_errors_error, ?console_errors_post,
            ?console_errors_write;
          cbn [external run fst snd]).

(** Step 6 makes no call and answers 200. *)
Lemma respond_ok_outcome (w : World) (mintTxHash : string) :
  external_calls (run w (respond_ok mintTxHash)).1 = []
  /\ console_errors (run w (respond_ok mintTxHash)).1 = []
  /\ (run w (respond_ok mintTxHash)).2 =
     c_json [ ("message", Some (JStr "NFT mint request initiated successfully."));
              ("nftMintTxHash", Some (JStr mintTxHash)) ] 200.
Proof. repeat split. Qed.

(** Step 5: one call to [/settle], then the 200 response, whatever came back. *)
Lemma settle_payment_outcome (w : World) (h mintTxHash : string) :
  let settled := w _ (axios_post SETTLE_URL (facilitator_body h)) in
  external_calls (run w (settle_payment h mintTxHash)).1 = [Settle settled]
  /\ console_errors (run w (settle_payment h mintTxHash)).1 = settle_log settled
  /\ (run w (settle_payment h mintTxHash)).2 =
     c_json [ ("message", Some (JStr "NFT mint request initiated successfully."));
              ("nftMintTxHash", Some (JStr mintTxHash)) ] 200.
Proof.
  unfold settle_payment, settle_log. run_step.
  destruct (w _ (axios_post SETTLE_URL (facilitator_body h))) as [result | err];
    [destruct (success result) |]; cbn [negb]; run_step;
    destruct (respond_ok_outcome w mintTxHash) as (-> & -> & ->); repeat split.
Qed.

(** Step 4: the mint is submitted; settlement follows only when it was. *)
Lemma mint_nft_outcome (w : World) (h : string) (paymentHeader data : JValue) :
  isValid data = true ->
  Outcome (Verify (Fulfilled data) :: external_calls (run w (mint_nft h paymentHeader)).1)
          (console_errors (run w (mint_nft h paymentHeader)).1)
          (run w (mint_nft h paymentHeader)).2.
Proof.
  intros Hvalid. unfold mint_nft. run_step.
  destruct (w _ (writeContract (mint_request (authorization_from paymentHeader))))
    as [mintTxHash | err]; run_step.
  - destruct (settle_payment_outcome w h mintTxHash) as (-> & -> & ->).
    now apply Served.
  - now apply TriggerFailed.
Qed.

(** Step 3: nothing follows a verification that threw or said no. *)
Lemma verify_payment_outcome (w : World) (h : string) (paymentHeader : JValue) :
  Outcome (external_calls (run w (verify_payment h paymentHeader)).1)
          (console_errors (run w (verify_payment h paymentHeader)).1)
          (run w (verify_payment h paymentHeader)).2.
Proof.
  unfold verify_payment. run_step.
  destruct (w _ (axios_post VERIFY_URL (facilitator_body h))) as [data | err]; run_step.
  - destruct (isValid data) eqn:Hvalid; cbn [negb]; run_step.
    + now apply mint_nft_outcome.
    + now apply Refused.
  - apply VerifyThrew.
Qed.

(** Every request ends in one of the six terminal states. *)
Lemma request_mint_outcome (w : World) (X_PAYMENT : option string) :
  Outcome (external_calls (run w (request_mint X_PAYMENT)).1)
          (console_errors (run w (request_mint X_PAYMENT)).1)
          (run w (request_mint X_PAYMENT)).2.
Proof.
  unfold request_mint. run_step.
  destruct X_PAYMENT as [[| c h] |]; run_step; try apply Challenged.
  destruct (decode_payment_header (String c h)) as [err | paymentHeader]; run_step.
  - apply BadHeader.
  - apply verify_payment_outcome.
Qed.

(** On a verdict of the declared type, where [isValid] is a boolean, the test
    of the handler reads that boolean. *)
Lemma isValid_boolean (members : list (string * JValue)) (b : bool) :
  member "isValid" members = Some (JBool b) -> isValid (JObj members) = b.
Proof. unfold isValid. cbn [opt_chain read]. now intros ->. Qed.

Lemma strict_neq_string_spec (r : JsResult) (s : string) :
  strict_neq_string r s = true <-> r <> Some (JStr s).
Proof.
  unfold strict_neq_string.
  destruct r as [[| b | f | s' | items | members] |]; try (split; [discriminate | reflexivity]).
  rewrite negb_true_iff, String.eqb_neq. split; congruence.
Qed.

(** Step 2 throws exactly on the headers of [FailsDecoding]. *)
Lemma decode_payment_header_fails (h : string) (err : JsError) :
  decode_payment_header h = inl err <-> FailsDecoding h err.
Proof.
  unfold decode_payment_header. split.
  - destruct (JSON_parse (Buffer_from_base64_toString_utf8 h)) as [e | v] eqn:Hparse.
    + intros [= <-]. now apply NotJson.
    + assert (Hcheck :
        v <> JNull ->
        (if strict_neq_string (read v "scheme") SCHEME
            || strict_neq_string (read v "networkId") NETWORK_ID
            || negb (truthy (authorization_from v))
         then inl (Error "Invalid or incomplete payment header content.")
         else inr v) = inl err -> FailsDecoding h err).
      { intros Hnull.
        destruct (strict_neq_string (read v "scheme") SCHEME) eqn:Hs.
        - intros [= <-]. apply strict_neq_string_spec in Hs. now apply (WrongScheme h v).
        - destruct (strict_neq_string (read v "networkId") NETWORK_ID) eqn:Hn.
          + intros [= <-]. apply strict_neq_string_spec in Hn. now apply (WrongNetwork h v).
          + destruct (truthy (authorization_from v)) eqn:Hf; [discriminate |].
            intros [= <-]. now apply (NoPayer h v). }
      destruct v; try (apply Hcheck; discriminate).
      intros [= <-]. now apply IsNull.
  - destruct 1 as [err Hparse | Hparse | v Hparse Hnull Hscheme | v Hparse Hnull Hnet
                   | v Hparse Hnull Hfrom]; rewrite Hparse; try reflexivity.
    + apply strict_neq_string_spec in Hscheme.
      destruct v; try congruence; now rewrite Hscheme.
    + apply strict_neq_string_spec in Hnet.
      destruct v; try congruence; rewrite Hnet; now rewrite orb_true_r.
    + destruct v; try congruence; rewrite Hfrom; now rewrite orb_true_r.
Qed.

(** Where an element sits in a list of three. *)
Lemma split_three {A : Type} (a b c x : A) (before after : list A) :
  [a; b; c] = before ++ x :: after ->
  (before = [] /\ x = a) \/ (before = [a] /\ x = b) \/ (before = [a; b] /\ x = c).
Proof.
  destruct before as [| a' [| b' [| c' rest]]]; cbn; intros [= -> ?]; subst; auto.
  destruct rest; discriminate.
Qed.

Lemma in_split_r {A : Type} (x : A) (before after l : list A) :
  l = before ++ x :: after -> In x l.
Proof. intros ->. apply in_or_app. right. now left. Qed.

(** The six cases of [request_mint_outcome] for a run given by an equation. *)
Ltac outcome_cases Hrun :=
  lazymatch type of Hrun with
  | run ?w (request_mint ?h) = (?trace, ?response) =>
      let HO := fresh "HO" in
      pose proof (request_mint_outcome w h) as HO;
      rewrite Hrun in HO; cbn [fst snd] in HO;
      unfold settle_count, mint_count in *;
      remember (external_calls trace) as calls eqn:Hcalls;
      remember (console_errors trace) as errors eqn:Herrors;
      clear Hrun Hcalls Herrors;
      destruct HO as [| failure | failure | verdict Hverdict | verdict failure Hverdict
                      | verdict hash outcome Hverdict]
  end.

Ltac absurd_member :=
  match goal with
  | Hin : In _ _ |- _ => cbn in Hin; intuition discriminate
  end.

(** *** The claims on the gate *)

(** C1 (evaluated on the code).  Whenever the gate answers 200, after a
    verification, a mint and a settlement call, the body has exactly the two
    members [message] and [nftMintTxHash]: neither the settlement receipt nor
    the reason settlement failed is part of the response. *)
Theorem success_body_omits_settlement (w : World) (X_PAYMENT : option string)
    (trace : list Entry) (response : Response) :
  run w (request_mint X_PAYMENT) = (trace, response) ->
  status response = 200 ->
  exists data mintTxHash settled,
    external_calls trace
      = [Verify (Fulfilled data); Mint (Fulfilled mintTxHash); Settle settled]
    /\ body response
       = JObj [ ("message", JStr "NFT mint request initiated successfully.");
                ("nftMintTxHash", JStr mintTxHash) ]
    /\ read (body response) "settlement" = None.
Proof.
  intros Hrun Hstatus. outcome_cases Hrun; try discriminate.
  exists verdict, hash, outcome. repeat split.
Qed.

(** C2.  In the calls of one request, every call to the facilitator's /settle
    comes after a call to /verify that returned a valid verdict ([isValid] is
    the test the handler applies to it); and when /verify returned an invalid
    verdict the response is 402 and /settle is called zero times. *)
Theorem settle_only_after_valid_verify (w : World) (X_PAYMENT : option string)
    (trace : list Entry) (response : Response) :
  run w (request_mint X_PAYMENT) = (trace, response) ->
  (forall before settled after,
      external_calls trace = before ++ Settle settled :: after ->
      exists data, In (Verify (Fulfilled data)) before /\ isValid data = true)
  /\ (forall data,
        In (Verify (Fulfilled data)) (external_calls trace) ->
        isValid data = false ->
        status response = 402 /\ settle_count trace = 0%nat).
Proof.
  intros Hrun. outcome_cases Hrun; split;
    try (intros before settled after Heq; apply in_split_r in Heq; absurd_member).
  - intros data [].
  - intros data [].
  - intros data [[=] | []].
  - intros data [[= ->] | []] _. now split.
  - intros data [[= ->] | Hin] Hinvalid; [congruence | absurd_member].
  - intros before settled after Heq.
    destruct (split_three _ _ _ _ _ _ Heq) as [[_ [=]] | [[_ [=]] | [-> _]]].
    exists verdict. split; [now left | assumption].
  - intros data [[= ->] | Hin] Hinvalid; [congruence | absurd_member].
Qed.

(** C3.  When the mint submission throws, the response is 500 and /settle is
    called zero times. *)
Theorem trigger_failure_skips_settlement (w : World) (X_PAYMENT : option string)
    (trace : list Entry) (response : Response) (err : JsError) :
  run w (request_mint X_PAYMENT) = (trace, response) ->
  In (Mint (Rejected err)) (external_calls trace) ->
  status response = 500
  /\ settle_count trace = 0%nat
  /\ body response = JObj [ ("error", JStr "Failed to initiate NFT minting.");
                            ("details", JStr (message err)) ].
Proof.
  intros Hrun Hin. outcome_cases Hrun; try absurd_member.
  destruct Hin as [[=] | [[= ->] | []]]. repeat split.
Qed.

(** C6.  Without the X-PAYMENT header the response is 402 with the body
    [{ paymentDetails: paymentDetailsRequired, error: 'Payment required' }],
    in every world: the payment details are the declared constant, and no
    external call is made. *)
Theorem missing_header_is_challenged (w : World) :
  (run w (request_mint None)).2
    = mkResponse 402 (JObj [ ("paymentDetails", paymentDetailsRequired);
                             ("error", JStr "Payment required") ])
  /\ read (body (run w (request_mint None)).2) "paymentDetails" = Some paymentDetailsRequired
  /\ external_calls (run w (request_mint None)).1 = [].
Proof. repeat split. Qed.

(** C7 (amended).  A non-empty header on which step 2 throws (its decoding is
    not JSON, or is [null], or names another scheme or network, or has no
    truthy [payload.authorization.from]) is answered with 400, not 402, and
    no external call is made: no verification, no mint, no settlement. *)
Theorem undecodable_header_is_rejected (w : World) (c : ascii) (h : string) (err : JsError)
    (trace : list Entry) (response : Response) :
  FailsDecoding (String c h) err ->
  run w (request_mint (Some (String c h))) = (trace, response) ->
  response = mkResponse 400 (JObj [ ("error", JStr "Invalid payment header format.");
                                     ("details", JStr (message err)) ])
  /\ status response <> 402
  /\ external_calls trace = [].
Proof.
  intros Hfails Hrun. apply decode_payment_header_fails in Hfails.
  unfold request_mint in Hrun. rewrite Hfails in Hrun.
  cbn in Hrun. injection Hrun as <- <-. repeat split. discriminate.
Qed.

(** C9.  When verification succeeded and the mint transaction was submitted,
    the response is 200 with the body [{ message, nftMintTxHash }], which does
    not mention the outcome of /settle; /settle was called once, and a failure
    or an exception of that call shows only in what [console.error] wrote. *)
Theorem settlement_outcome_is_only_logged (w : World) (X_PAYMENT : option string)
    (trace : list Entry) (response : Response) (data : JValue) (mintTxHash : string) :
  run w (request_mint X_PAYMENT) = (trace, response) ->
  In (Verify (Fulfilled data)) (external_calls trace) ->
  isValid data = true ->
  In (Mint (Fulfilled mintTxHash)) (external_calls trace) ->
  response = mkResponse 200 (JObj [ ("message", JStr "NFT mint request initiated successfully.");
                                     ("nftMintTxHash", JStr mintTxHash) ])
  /\ exists settled,
       external_calls trace
         = [Verify (Fulfilled data); Mint (Fulfilled mintTxHash); Settle settled]
       /\ console_errors trace = settle_log settled.
Proof.
  intros Hrun Hverify Hvalid Hmint. outcome_cases Hrun; try absurd_member.
  destruct Hmint as [[=] | [[= ->] | [[=] | []]]].
  destruct Hverify as [[= ->] | [[=] | [[=] | []]]].
  split; [reflexivity |]. now exists outcome.
Qed.

(** C10.  When the call to /verify itself throws, the response is 500 with
    the body [{ error: 'Facilitator verification call failed.' }], and /verify
    is the only external call: no mint, no settlement. *)
Theorem verify_exception_is_server_error (w : World) (X_PAYMENT : option string)
    (trace : list Entry) (response : Response) (err : JsError) :
  run w (request_mint X_PAYMENT) = (trace, response) ->
  In (Verify (Rejected err)) (external_calls trace) ->
  response = mkResponse 500 (JObj [ ("error", JStr "Facilitator verification call failed.") ])
  /\ external_calls trace = [Verify (Rejected err)]
  /\ mint_count trace = 0%nat
  /\ settle_count trace = 0%nat.
Proof.
  intros Hrun Hin. outcome_cases Hrun; try absurd_member.
  destruct Hin as [[= ->] | []]. repeat split.
Qed.

(** *** Further properties of the gate *)

Lemma requests_sent_cons (c : Entry) (trace : list Entry) :
  requests_sent (c :: trace) =
  match sent c with
  | Some x => x :: requests_sent trace
  | None => requests_sent trace
  end.
Proof. reflexivity. Qed.

Ltac sent_step :=
  repeat (rewrite ?run_Vis_trace, ?requests_sent_cons; cbn [sent run fst snd]).

Lemma in_firstn {A : Type} (x : A) (n : nat) (l : list A) :
  In x (firstn n l) -> In x l.
Proof.
  revert l. induction n as [| n IH]; intros [| y l]; cbn; try tauto.
  intros [-> | Hin]; [now left | right; now apply IH].
Qed.

(** From step 3 on, the requests sent are the first one, two or three of
    [protocol_requests]. *)
Lemma requests_sent_verify_payment (w : World) (h : string) (paymentHeader : JValue) :
  exists n, requests_sent (run w (verify_payment h paymentHeader)).1
            = firstn (S n) (protocol_requests h paymentHeader).
Proof.
  unfold verify_payment, mint_nft, settle_payment, respond_ok. sent_step.
  destruct (w _ (axios_post VERIFY_URL (facilitator_body h))) as [data | err]; sent_step;
    [| now exists 0%nat].
  destruct (negb (isValid data)); sent_step; [now exists 0%nat |].
  destruct (w _ (writeContract (mint_request (authorization_from paymentHeader))))
    as [hash | err]; sent_step; [| now exists 1%nat].
  exists 2%nat.
  destruct (w _ (axios_post SETTLE_URL (facilitator_body h))) as [result | err];
    [destruct (negb (success result)) |]; sent_step; reflexivity.
Qed.

Lemma requests_sent_request_mint (w : World) (h : string) :
  exists n, requests_sent (run w (request_mint (Some h))).1
            = firstn n match decode_payment_header h with
                       | inr paymentHeader => protocol_requests h paymentHeader
                       | inl _ => []
                       end.
Proof.
  unfold request_mint. sent_step.
  destruct h as [| c h]; sent_step; [now exists 0%nat |].
  destruct (decode_payment_header (String c h)) as [err | paymentHeader]; sent_step.
  - now exists 0%nat.
  - destruct (requests_sent_verify_payment w (String c h) paymentHeader) as [n ->].
    now exists (S n).
Qed.

(** Step 2 lets through exactly the values that pass the basic validation,
    unchanged. *)
Lemma decode_payment_header_accepts (h : string) (paymentHeader : JValue) :
  decode_payment_header h = inr paymentHeader
  <-> JSON_parse (Buffer_from_base64_toString_utf8 h) = inr paymentHeader
      /\ read paymentHeader "scheme" = Some (JStr SCHEME)
      /\ read paymentHeader "networkId" = Some (JStr NETWORK_ID)
      /\ truthy (authorization_from paymentHeader) = true.
Proof.
  unfold decode_payment_header.
  destruct (JSON_parse (Buffer_from_base64_toString_utf8 h)) as [e | v];
    [split; [discriminate | intros [[=] _]] |].
  split.
  - assert (Hcheck :
        (if strict_neq_string (read v "scheme") SCHEME
            || strict_neq_string (read v "networkId") NETWORK_ID
            || negb (truthy (authorization_from v))
         then inl (Error "Invalid or incomplete payment header content.")
         else inr v) = (inr paymentHeader : JsError + JValue) ->
        (inr v : JsError + JValue) = inr paymentHeader
        /\ read paymentHeader "scheme" = Some (JStr SCHEME)
        /\ read paymentHeader "networkId" = Some (JStr NETWORK_ID)
        /\ truthy (authorization_from paymentHeader) = true).
    { destruct (strict_neq_string (read v "scheme") SCHEME) eqn:Hs; [discriminate |].
      destruct (strict_neq_string (read v "networkId") NETWORK_ID) eqn:Hn; [discriminate |].
      destruct (truthy (authorization_from v)) eqn:Hf; [| discriminate].
      intros [= <-].
      assert (Hs' : ~ read v "scheme" <> Some (JStr SCHEME))
        by (rewrite <- strict_neq_string_spec; congruence).
      assert (Hn' : ~ read v "networkId" <> Some (JStr NETWORK_ID))
        by (rewrite <- strict_neq_string_spec; congruence).
      repeat split; [| | exact Hf].
      - destruct (read v "scheme") as [[| | | s' | |] |]; try (exfalso; apply Hs'; discriminate).
        destruct (String.eqb_spec s' SCHEME) as [-> | Hne]; [reflexivity |].
        exfalso. apply Hs'. congruence.
      - destruct (read v "networkId") as [[| | | s' | |] |];
          try (exfalso; apply Hn'; discriminate).
        destruct (String.eqb_spec s' NETWORK_ID) as [-> | Hne]; [reflexivity |].
        exfalso. apply Hn'. congruence. }
    destruct v; try exact Hcheck. discriminate.
  - intros ([= <-] & Hscheme & Hnetwork & Hfrom).
    assert (Hs : strict_neq_string (read v "scheme") SCHEME = false).
    { rewrite Hscheme. unfold strict_neq_string. now rewrite String.eqb_refl. }
    assert (Hn : strict_neq_string (read v "networkId") NETWORK_ID = false).
    { rewrite Hnetwork. unfold strict_neq_string. now rewrite String.eqb_refl. }
    destruct v; try (rewrite Hs, Hn, Hfrom; reflexivity).
    discriminate.
Qed.

(** X1. The facilitator is sent the header as received.  Every POST of a
    request goes to /verify or /settle of the facilitator, and its body is
    [{ payload: <the X-PAYMENT header, unchanged>, details:
    paymentDetailsRequired }]. *)
Theorem facilitator_gets_header_and_terms (w : World) (h : string)
    (trace : list Entry) (response : Response) (url : string) (body : JValue) :
  run w (request_mint (Some h)) = (trace, response) ->
  In (Post url body) (requests_sent trace) ->
  (url = VERIFY_URL \/ url = SETTLE_URL)
  /\ body = JObj [ ("payload", JStr h); ("details", paymentDetailsRequired) ].
Proof.
  intros Hrun Hin.
  destruct (requests_sent_request_mint w h) as [n Hsent].
  rewrite Hrun in Hsent. cbn [fst] in Hsent. rewrite Hsent in Hin.
  apply in_firstn in Hin.
  destruct (decode_payment_header h) as [err | paymentHeader]; [destruct Hin |].
  destruct Hin as [[= <- <-] | [[=] | [[= <- <-] | []]]]; split; auto.
Qed.

(** X2. The token is requested for the payer.  The one contract write of a
    request calls [requestNFT] of the NFT contract with the value of
    [parseEther('0.01')] and the single argument
    [payload.authorization.from] of the decoded header, which is truthy. *)
Theorem mint_is_for_the_payer (w : World) (h : string)
    (trace : list Entry) (response : Response) (req : WriteContractRequest) :
  run w (request_mint (Some h)) = (trace, response) ->
  In (Write req) (requests_sent trace) ->
  exists paymentHeader,
    JSON_parse (Buffer_from_base64_toString_utf8 h) = inr paymentHeader
    /\ truthy (authorization_from paymentHeader) = true
    /\ req = mkWrite NFT_CONTRACT_ADDRESS nftContractAbi "requestNFT"
               [authorization_from paymentHeader] (parseEther MINT_ETH_VALUE_STR).
Proof.
  intros Hrun Hin.
  destruct (requests_sent_request_mint w h) as [n Hsent].
  rewrite Hrun in Hsent. cbn [fst] in Hsent. rewrite Hsent in Hin.
  apply in_firstn in Hin.
  destruct (decode_payment_header h) as [err | paymentHeader] eqn:Hdecode; [destruct Hin |].
  apply decode_payment_header_accepts in Hdecode as (Hparse & _ & _ & Hfrom).
  destruct Hin as [[=] | [[= <-] | [[=] | []]]].
  exists paymentHeader. repeat split; assumption.
Qed.

(** X3. Each external call is made at most once.  One request calls /verify,
    the mint and /settle at most once each, and it is answered 200 exactly
    when /settle was called. *)
Theorem each_call_at_most_once (w : World) (X_PAYMENT : option string)
    (trace : list Entry) (response : Response) :
  run w (request_mint X_PAYMENT) = (trace, response) ->
  (verify_count trace <= 1)%nat
  /\ (mint_count trace <= 1)%nat
  /\ (settle_count trace <= 1)%nat
  /\ (status response = 200 <-> settle_count trace = 1%nat).
Proof.
  intros Hrun. unfold verify_count. outcome_cases Hrun;
    (split; [vm_compute; lia | split; [vm_compute; lia | split; [vm_compute; lia |]]]);
    (split; [intros Hstatus; try discriminate Hstatus; reflexivity
            | intros Hcount; try (vm_compute in Hcount; discriminate Hcount); reflexivity]).
Qed.

(** X4. The action is triggered only after a valid verdict.  In the calls of
    one request the mint comes after a /verify that returned a valid verdict;
    a request that is answered 400 or 402 has not minted. *)
Theorem mint_only_after_valid_verify (w : World) (X_PAYMENT : option string)
    (trace : list Entry) (response : Response) :
  run w (request_mint X_PAYMENT) = (trace, response) ->
  (forall before minted after,
      external_calls trace = before ++ Mint minted :: after ->
      exists data, before = [Verify (Fulfilled data)] /\ isValid data = true)
  /\ (status response = 400 \/ status response = 402 -> mint_count trace = 0%nat).
Proof.
  intros Hrun. outcome_cases Hrun; split;
    try (intros before minted after Heq; apply in_split_r in Heq; absurd_member);
    try (intros _; reflexivity);
    try (intros [[=] | [=]]).
  - intros before minted after Heq.
    destruct before as [| a [| b rest]]; cbn in Heq; try discriminate.
    + injection Heq as <- Hrest. now exists verdict.
    + injection Heq as _ _ Hrest. destruct rest; discriminate.
  - intros before minted after Heq.
    destruct (split_three _ _ _ _ _ _ Heq) as [[_ [=]] | [[-> _] | [_ [=]]]].
    now exists verdict.
Qed.

(** Step 3 begins with the call to /verify. *)
Lemma verify_payment_starts (w : World) (h : string) (paymentHeader : JValue) :
  exists rest,
    external_calls (run w (verify_payment h paymentHeader)).1
    = Verify (w _ (axios_post VERIFY_URL (facilitator_body h))) :: rest.
Proof. unfold verify_payment. run_step. eexists. reflexivity. Qed.

(** A value of the declared envelope type names a payer. *)
Lemma envelope_has_payer (v : JValue) :
  is_XPaymentHeader v = true -> truthy (authorization_from v) = true.
Proof.
  unfold is_XPaymentHeader, authorization_from.
  destruct v as [| b | f | s | items | members]; try discriminate.
  intros Hv. apply andb_prop in Hv as [Hv _]. apply andb_prop in Hv as [_ Hpayload].
  unfold is_ExactEvmPayload in Hpayload.
  destruct (read (JObj members) "payload") as [[| | | | | payload] |]; try discriminate.
  apply andb_prop in Hpayload as [_ Hauth].
  cbn [opt_chain]. unfold is_authorization in Hauth.
  destruct (read (JObj payload) "authorization") as [[| | | | | auth] |]; try discriminate.
  repeat (apply andb_prop in Hauth as [Hauth _]).
  cbn [opt_chain]. unfold is_Hex in Hauth.
  destruct (read (JObj auth) "from") as [[| | | from | |] |]; try discriminate.
  destruct from; [discriminate | reflexivity].
Qed.

(** X5. A valid envelope is never called malformed.  When the header decodes
    to a value of the declared type [XPaymentHeader] whose scheme is 'exact'
    and whose networkId is the configured one, the gate does not answer 400:
    its first external call is /verify. *)
Theorem valid_envelope_reaches_verifier (w : World) (c : ascii) (h : string) (v : JValue)
    (trace : list Entry) (response : Response) :
  JSON_parse (Buffer_from_base64_toString_utf8 (String c h)) = inr v ->
  is_XPaymentHeader v = true ->
  read v "scheme" = Some (JStr SCHEME) ->
  read v "networkId" = Some (JStr NETWORK_ID) ->
  run w (request_mint (Some (String c h))) = (trace, response) ->
  status response <> 400
  /\ exists rest,
       external_calls trace
       = Verify (w _ (axios_post VERIFY_URL (facilitator_body (String c h)))) :: rest.
Proof.
  intros Hparse Hvalid Hscheme Hnetwork Hrun.
  assert (Hdecode : decode_payment_header (String c h) = inr v).
  { apply decode_payment_header_accepts. auto using envelope_has_payer. }
  assert (Htrace : trace = (run w (request_mint (Some (String c h)))).1) by now rewrite Hrun.
  assert (Hresponse : response = (run w (request_mint (Some (String c h)))).2)
    by now rewrite Hrun.
  unfold request_mint in Htrace, Hresponse. rewrite Hdecode in Htrace, Hresponse.
  rewrite run_Vis_trace in Htrace. rewrite run_Vis_result in Hresponse.
  destruct (verify_payment_starts w (String c h) v) as [rest Hstarts].
  pose proof (verify_payment_outcome w (String c h) v) as HO.
  rewrite Hstarts in HO. rewrite <- Hresponse in HO.
  split.
  - inversion HO; discriminate.
  - exists rest. rewrite Htrace, external_calls_cons. exact Hstarts.
Qed.

(** X6. When the gate asks for payment.  The answer is 402 in two cases only:
    the header is missing or empty and nothing was called, or /verify was the
    only call and returned an invalid verdict. *)
Theorem payment_required_iff (w : World) (X_PAYMENT : option string)
    (trace : list Entry) (response : Response) :
  run w (request_mint X_PAYMENT) = (trace, response) ->
  status response = 402
  <-> ((X_PAYMENT = None \/ X_PAYMENT = Some EmptyString) /\ external_calls trace = [])
      \/ (exists data, external_calls trace = [Verify (Fulfilled data)]
                       /\ isValid data = false).
Proof.
  intros Hrun.
  assert (Htrace : trace = (run w (request_mint X_PAYMENT)).1) by now rewrite Hrun.
  assert (Hresponse : response = (run w (request_mint X_PAYMENT)).2) by now rewrite Hrun.
  clear Hrun. destruct X_PAYMENT as [[| c h] |].
  - subst. split; [intros _; left; split; [now right | reflexivity] | reflexivity].
  - unfold request_mint in Htrace, Hresponse.
    destruct (decode_payment_header (String c h)) as [err | v].
    + subst. split; [discriminate |].
      intros [[[[=] | [=]] _] | (data & [=] & _)].
    + rewrite run_Vis_trace in Htrace. rewrite run_Vis_result in Hresponse.
      destruct (verify_payment_starts w (String c h) v) as [rest Hstarts].
      pose proof (verify_payment_outcome w (String c h) v) as HO.
      rewrite <- Hresponse in HO.
      assert (Hcalls : external_calls trace
                       = external_calls (run w (verify_payment (String c h) v)).1)
        by (rewrite Htrace; apply external_calls_cons).
      rewrite <- Hcalls in HO, Hstarts. clear Htrace Hresponse Hcalls.
      rewrite Hstarts in *.
      remember (console_errors (run w (verify_payment (String c h) v)).1) as errors eqn:He.
      remember (w _ (axios_post VERIFY_URL (facilitator_body (String c h)))) as outcome
        eqn:Ho.
      clear He Ho Hstarts.
      inversion HO; subst; (split; [intros Hstatus; try discriminate Hstatus
                                   | intros [[_ [=]] | (data' & [=] & Hno)]]).
      * right. eexists. split; [reflexivity | assumption].
      * reflexivity.
  - subst. split; [intros _; left; split; [now left | reflexivity] | reflexivity].
Qed.

(** X7. A refusal says why.  When /verify returned an invalid verdict, the 402
    body repeats the declared payment details and carries the facilitator's
    [invalidReason] as [details], or 'Unknown' when the verdict has no truthy
    reason. *)
Theorem refusal_reports_reason (w : World) (X_PAYMENT : option string)
    (trace : list Entry) (response : Response) (data : JValue) :
  run w (request_mint X_PAYMENT) = (trace, response) ->
  In (Verify (Fulfilled data)) (external_calls trace) ->
  isValid data = false ->
  read (body response) "paymentDetails" = Some paymentDetailsRequired
  /\ read (body response) "error" = Some (JStr "Payment verification failed.")
  /\ read (body response) "details"
     = Some match opt_chain (Some data) "invalidReason" with
            | Some reason => if truthy (Some reason) then reason else JStr "Unknown"
            | None => JStr "Unknown"
            end.
Proof.
  intros Hrun Hin Hinvalid. outcome_cases Hrun; try absurd_member.
  - destruct Hin as [[= ->] | []]. unfold or_else.
    destruct (opt_chain (Some data) "invalidReason") as [reason |];
      [destruct (truthy (Some reason)) |]; repeat split.
  - destruct Hin as [[= ->] | Hin]; [congruence | absurd_member].
  - destruct Hin as [[= ->] | Hin]; [congruence | absurd_member].
Qed.

End Outcomes.

(** *** The claims at concrete requests *)

Section Examples.
Import Node Scenarios.
Local Open Scope string_scope.

(** C1 at scenario A: the facilitator reports a successful settlement with a
    transaction hash, and the 200 body carries neither. *)
Lemma success_body_omits_settlement_witness :
  status served.2 = 200
  /\ exists data mintTxHash outcome,
       external_calls served.1
         = [Verify (Fulfilled data); Mint (Fulfilled mintTxHash); Settle outcome]
       /\ body served.2
          = JObj [ ("message", JStr "NFT mint request initiated successfully.");
                   ("nftMintTxHash", JStr mintTxHash) ]
       /\ read (body served.2) "settlement" = None.
Proof.
  split; [reflexivity |].
  apply (success_body_omits_settlement (world verified minted settled) (Some paid_header));
    reflexivity.
Defined.

(** C2 at scenarios A and C. *)
Lemma settle_only_after_valid_verify_witness :
  (exists data, In (Verify (Fulfilled data)) (firstn 2 (external_calls served.1))
                /\ isValid data = true)
  /\ status underpaid.2 = 402 /\ settle_count underpaid.1 = 0%nat.
Proof.
  split.
  - apply (proj1 (settle_only_after_valid_verify (world verified minted settled)
                    (Some paid_header) served.1 served.2 (surjective_pairing served))
             (firstn 2 (external_calls served.1)) settled []).
    reflexivity.
  - apply (proj2 (settle_only_after_valid_verify (world insufficient minted settled)
                    (Some underpaid_header) underpaid.1 underpaid.2 (surjective_pairing underpaid))
             (JObj [("isValid", JBool false);
                    ("invalidReason", JStr "invalid_exact_evm_payload_authorization_value")])).
    + left. reflexivity.
    + reflexivity.
Defined.

(** C3 at scenario D. *)
Lemma trigger_failure_skips_settlement_witness :
  status unfunded.2 = 500
  /\ settle_count unfunded.1 = 0%nat
  /\ body unfunded.2
     = JObj [ ("error", JStr "Failed to initiate NFT minting.");
              ("details", JStr "insufficient funds for gas * price + value") ].
Proof.
  apply (trigger_failure_skips_settlement
           (world verified (refused "insufficient funds for gas * price + value") settled)
           (Some paid_header) unfunded.1 unfunded.2
           (Error "insufficient funds for gas * price + value") (surjective_pairing unfunded)).
  right. left. reflexivity.
Defined.

(** C7 as stated fails: [bare_header] is not a valid envelope (it has no
    version, signature, amount or resource), yet the gate calls the verifier.
    When the facilitator refuses it the answer is 402, not 400; when the
    facilitator accepts it the gate mints, settles and answers 200. *)
Lemma bare_header_reaches_verifier :
  malformed bare_header
  /\ status (run (world insufficient minted settled) (request_mint (Some bare_header))).2 = 402
  /\ external_calls (run (world insufficient minted settled) (request_mint (Some bare_header))).1
     = [Verify insufficient]
  /\ status (run (world verified minted settled) (request_mint (Some bare_header))).2 = 200
  /\ external_calls (run (world verified minted settled) (request_mint (Some bare_header))).1
     = [Verify verified; Mint minted; Settle settled].
Proof.
  split; [| repeat split].
  unfold malformed. vm_compute. left. reflexivity.
Qed.

(** C7 (amended) at a header for another network. *)
Lemma undecodable_header_is_rejected_witness :
  let r := run (world verified minted settled) (request_mint (Some other_network_header)) in
  r.2 = mkResponse 400 (JObj [ ("error", JStr "Invalid payment header format.");
                               ("details", JStr "Invalid or incomplete payment header content.") ])
  /\ status r.2 <> 402
  /\ external_calls r.1 = [].
Proof.
  apply (undecodable_header_is_rejected (world verified minted settled)
           "e"%char (String.substring 1 (String.length other_network_header) other_network_header)
           (Error "Invalid or incomplete payment header content.")).
  - apply (WrongNetwork _ (JObj [ ("x402Version", JNum 1); ("scheme", JStr "exact");
                                  ("networkId", JStr "1"); ("payload", JObj []) ])).
    + reflexivity.
    + discriminate.
    + discriminate.
  - reflexivity.
Defined.

(** C9 where the facilitator reports a failed settlement: the response is the
    same 200, and the failure went to [console.error]. *)
Lemma settlement_outcome_is_only_logged_witness :
  unpaid.2 = served.2
  /\ status unpaid.2 = 200
  /\ console_errors unpaid.1
     = [[Txt "WARN ResourceServer: Facilitator settlement failed:";
         Val (Some (JStr "invalid_nonce"))]].
Proof.
  destruct (settlement_outcome_is_only_logged (world verified minted unsettled)
              (Some paid_header) unpaid.1 unpaid.2
              (JObj [("isValid", JBool true); ("invalidReason", JNull)])
              "0xeee74e323af3e981e60a6a3299757fa53a0f9fff8409d7df76165e8df38e7bf9"
              (surjective_pairing unpaid) (or_introl eq_refl) eq_refl
              (or_intror (or_introl eq_refl)))
    as [Hresponse [outcome [Hcalls Hlog]]].
  injection Hcalls as <-.
  split; [| split].
  - rewrite Hresponse. reflexivity.
  - rewrite Hresponse. reflexivity.
  - rewrite Hlog. reflexivity.
Defined.

(** C10 with the facilitator down. *)
Lemma verify_exception_is_server_error_witness :
  unverified.2
    = mkResponse 500 (JObj [ ("error", JStr "Facilitator verification call failed.") ])
  /\ external_calls unverified.1
     = [Verify (refused "connect ECONNREFUSED 127.0.0.1:4020")]
  /\ mint_count unverified.1 = 0%nat
  /\ settle_count unverified.1 = 0%nat.
Proof.
  apply (verify_exception_is_server_error
           (world (refused "connect ECONNREFUSED 127.0.0.1:4020") minted settled)
           (Some paid_header) unverified.1 unverified.2
           (Error "connect ECONNREFUSED 127.0.0.1:4020") (surjective_pairing unverified)).
  left. reflexivity.
Defined.

(** X1, [facilitator_gets_header_and_terms], at scenario A, for the call to
    /settle. *)
Lemma facilitator_gets_header_and_terms_witness :
  (SETTLE_URL = VERIFY_URL \/ SETTLE_URL = SETTLE_URL)
  /\ facilitator_body paid_header
     = JObj [ ("payload", JStr paid_header); ("details", paymentDetailsRequired) ].
Proof.
  apply (facilitator_gets_header_and_terms (world verified minted settled) paid_header
           served.1 served.2 SETTLE_URL (facilitator_body paid_header)
           (surjective_pairing served)).
  right. right. left. reflexivity.
Defined.

(** X2, [mint_is_for_the_payer], at scenario A: the token is requested for the
    [from] address of the authorization. *)
Lemma mint_is_for_the_payer_witness :
  exists paymentHeader,
    parse (Base64.decode paid_header) = inr paymentHeader
    /\ truthy (authorization_from paymentHeader) = true
    /\ mkWrite NFT_CONTRACT_ADDRESS nftContractAbi "requestNFT"
         [Some (JStr "0x208AA722Aca42399eaC5192EE778e4D42f4E5De3")] (10 ^ 16)
       = mkWrite NFT_CONTRACT_ADDRESS nftContractAbi "requestNFT"
           [authorization_from paymentHeader] (Node.parseEther MINT_ETH_VALUE_STR).
Proof.
  apply (mint_is_for_the_payer (world verified minted settled) paid_header
           served.1 served.2 _ (surjective_pairing served)).
  right. left. reflexivity.
Defined.

(** X3, [each_call_at_most_once], at scenario A. *)
Lemma each_call_at_most_once_witness :
  (verify_count served.1 <= 1)%nat
  /\ (mint_count served.1 <= 1)%nat
  /\ (settle_count served.1 <= 1)%nat
  /\ (status served.2 = 200 <-> settle_count served.1 = 1%nat).
Proof.
  exact (each_call_at_most_once (world verified minted settled) (Some paid_header)
           served.1 served.2 (surjective_pairing served)).
Defined.

(** X4, [mint_only_after_valid_verify], at scenarios A and C. *)
Lemma mint_only_after_valid_verify_witness :
  (exists data, firstn 1 (external_calls served.1) = [Verify (Fulfilled data)]
                /\ isValid data = true)
  /\ mint_count underpaid.1 = 0%nat.
Proof.
  split.
  - apply (proj1 (mint_only_after_valid_verify (world verified minted settled)
                    (Some paid_header) served.1 served.2 (surjective_pairing served))
             (firstn 1 (external_calls served.1)) minted [Settle settled]).
    reflexivity.
  - apply (proj2 (mint_only_after_valid_verify (world insufficient minted settled)
                    (Some underpaid_header) underpaid.1 underpaid.2
                    (surjective_pairing underpaid))).
    right. reflexivity.
Defined.

(** X5, [valid_envelope_reaches_verifier], at scenario D, where the request ends
    in 500. *)
Lemma valid_envelope_reaches_verifier_witness :
  status unfunded.2 <> 400
  /\ exists rest, external_calls unfunded.1 = Verify verified :: rest.
Proof.
  apply (valid_envelope_reaches_verifier
           (world verified (refused "insufficient funds for gas * price + value") settled)
           "e"%char (String.substring 1 (String.length paid_header) paid_header)
           match parse (Base64.decode paid_header) with inr v => v | inl _ => JNull end);
    vm_compute; reflexivity.
Defined.

(** X6, [payment_required_iff], at scenario C. *)
Lemma payment_required_iff_witness :
  status underpaid.2 = 402
  <-> ((Some underpaid_header = None \/ Some underpaid_header = Some EmptyString)
       /\ external_calls underpaid.1 = [])
      \/ (exists data, external_calls underpaid.1 = [Verify (Fulfilled data)]
                       /\ isValid data = false).
Proof.
  exact (payment_required_iff (world insufficient minted settled) (Some underpaid_header)
           underpaid.1 underpaid.2 (surjective_pairing underpaid)).
Defined.

(** X7, [refusal_reports_reason], at scenario C. *)
Lemma refusal_reports_reason_witness :
  read (body underpaid.2) "paymentDetails" = Some paymentDetailsRequired
  /\ read (body underpaid.2) "error" = Some (JStr "Payment verification failed.")
  /\ read (body underpaid.2) "details"
     = Some (JStr "invalid_exact_evm_payload_authorization_value").
Proof.
  apply (refusal_reports_reason (world insufficient minted settled) (Some underpaid_header)
           underpaid.1 underpaid.2
           (JObj [("isValid", JBool false);
                  ("invalidReason", JStr "invalid_exact_evm_payload_authorization_value")])
           (surjective_pairing underpaid)).
  - left. reflexivity.
  - reflexivity.
Defined.

End Examples.
End GateProofs.

(** ** Base64: decoding what was encoded *)

Module Base64Proofs.
Import Base64.

Local Open Scope N_scope.

(** A check that holds for 0 .. k-1 holds below k. *)
Lemma below_forallb (k : nat) (check : N -> bool) :
  forallb check (map N.of_nat (seq 0 k)) = true ->
  forall n, n < N.of_nat k -> check n = true.
Proof.
  intros Hall n Hn. rewrite forallb_forall in Hall. apply Hall.
  rewrite <- (N2Nat.id n). apply in_map. apply in_seq. lia.
Qed.

Lemma digit_sextet (n : N) :
  n < 64 -> sextet (digit n) = Some n /\ Ascii.eqb (digit n) "="%char = false.
Proof.
  intros Hn.
  pose proof (below_forallb 64
                (fun n => match sextet (digit n) with
                          | Some m => N.eqb m n
                          | None => false
                          end && negb (Ascii.eqb (digit n) "="%char))
                eq_refl n Hn) as Hcheck.
  cbv beta in Hcheck. apply andb_prop in Hcheck as [Hvalue Hpad].
  destruct (sextet (digit n)) as [m |]; [| discriminate].
  apply N.eqb_eq in Hvalue. subst. split; [reflexivity |].
  now apply negb_true_iff.
Qed.

Lemma sextets_digit (n : N) (rest : list ascii) :
  n < 64 -> sextets (digit n :: rest) = n :: sextets rest.
Proof.
  intros Hn. destruct (digit_sextet n Hn) as [Hvalue Hpad].
  cbn [sextets]. now rewrite Hpad, Hvalue.
Qed.

Lemma sextets_padding (rest : list ascii) : sextets ("="%char :: rest) = [].
Proof. reflexivity. Qed.

Lemma pairs_ok (a b : N) : a < 256 -> b < 256 -> pair_ok a b = true.
Proof.
  intros Ha Hb.
  assert (Hall : forallb (fun a => forallb (pair_ok a) (map N.of_nat (seq 0 256)))
                   (map N.of_nat (seq 0 256)) = true) by (vm_compute; reflexivity).
  pose proof (below_forallb 256 _ Hall a Ha) as Hrow. cbv beta in Hrow.
  exact (below_forallb 256 _ Hrow b Hb).
Qed.

Lemma pair_facts (a b : N) :
  a < 256 -> b < 256 ->
  N.shiftr a 2 < 64
  /\ N.lor (N.shiftl (N.land a 3) 4) (N.shiftr b 4) < 64
  /\ N.lor (N.shiftl (N.land a 15) 2) (N.shiftr b 6) < 64
  /\ N.land a 63 < 64
  /\ N.shiftl (N.land a 3) 4 < 64
  /\ N.shiftl (N.land a 15) 2 < 64
  /\ N.lor (N.shiftl (N.shiftr a 2) 2)
       (N.shiftr (N.lor (N.shiftl (N.land a 3) 4) (N.shiftr b 4)) 4) = a
  /\ N.land (N.lor (N.shiftl (N.land a 3) 4) (N.shiftr b 4)) 15 = N.shiftr b 4
  /\ N.shiftr (N.lor (N.shiftl (N.land a 15) 2) (N.shiftr b 6)) 2 = N.land a 15
  /\ N.lor (N.shiftl (N.shiftr a 4) 4) (N.land a 15) = a
  /\ N.lor (N.shiftl (N.land (N.lor (N.shiftl (N.land a 15) 2) (N.shiftr b 6)) 3) 6)
       (N.land b 63) = b
  /\ N.lor (N.shiftl (N.shiftr a 2) 2) (N.shiftr (N.shiftl (N.land a 3) 4) 4) = a
  /\ N.shiftr (N.shiftl (N.land a 15) 2) 2 = N.land a 15.
Proof.
  intros Ha Hb. pose proof (pairs_ok a b Ha Hb) as Hok. unfold pair_ok in Hok.
  repeat (apply andb_prop in Hok as [Hok ?]).
  repeat match goal with
         | Hc : (_ <? _) = true |- _ => apply N.ltb_lt in Hc
         | Hc : (_ =? _) = true |- _ => apply N.eqb_eq in Hc
         end.
  repeat split; assumption.
Qed.

(** Decoding undoes encoding, on bytes. *)
Lemma decode_encode_bytes (bytes : list N) :
  Forall (fun byte => byte < 256) bytes ->
  decode_sextets (sextets (encode_bytes bytes)) = bytes.
Proof.
  enough (Hall : (Forall (fun byte => byte < 256) bytes ->
                  decode_sextets (sextets (encode_bytes bytes)) = bytes)
                 /\ (forall a, Forall (fun byte => byte < 256) (a :: bytes) ->
                       decode_sextets (sextets (encode_bytes (a :: bytes))) = a :: bytes)
                 /\ (forall a b, Forall (fun byte => byte < 256) (a :: b :: bytes) ->
                       decode_sextets (sextets (encode_bytes (a :: b :: bytes)))
                       = a :: b :: bytes)) by apply Hall.
  induction bytes as [| c rest (IH0 & IH1 & IH2)].
  - split; [reflexivity | split].
    + intros a Hbytes. inversion_clear Hbytes as [| ? ? Ha _].
      destruct (pair_facts a a Ha Ha) as (H1 & _ & _ & _ & H5 & _ & _ & _ & _ & _ & _ & H12 & _).
      cbn [encode_bytes]. rewrite !sextets_digit, sextets_padding by assumption.
      cbn [decode_sextets]. now rewrite H12.
    + intros a b Hbytes. inversion_clear Hbytes as [| ? ? Ha Hrest].
      inversion_clear Hrest as [| ? ? Hb _].
      destruct (pair_facts a b Ha Hb) as (H1 & H2 & _ & _ & _ & _ & H7 & H8 & _).
      destruct (pair_facts b b Hb Hb)
        as (_ & _ & _ & _ & _ & H6 & _ & _ & _ & H10 & _ & _ & H13).
      cbn [encode_bytes]. rewrite !sextets_digit, sextets_padding by assumption.
      cbn [decode_sextets]. now rewrite H7, H8, H13, H10.
  - split; [exact (IH1 c) | split; [intros a; exact (IH2 a c) |]].
    intros a b Hbytes. inversion_clear Hbytes as [| ? ? Ha Hrest].
    inversion_clear Hrest as [| ? ? Hb Hrest'].
    inversion_clear Hrest' as [| ? ? Hc Hrest].
    destruct (pair_facts a b Ha Hb) as (H1 & H2 & _ & _ & _ & _ & H7 & H8 & _).
    destruct (pair_facts b c Hb Hc)
      as (_ & _ & H3 & _ & _ & _ & _ & _ & H9 & H10 & H11 & _).
    destruct (pair_facts c c Hc Hc) as (_ & _ & _ & H4 & _).
    cbn [encode_bytes]. rewrite !sextets_digit by assumption.
    cbn [decode_sextets]. rewrite H7, H8, H9, H10, H11. now rewrite IH0.
Qed.

(** Decoding undoes encoding, on strings. *)
Lemma decode_encode (data : string) : decode (encode data) = data.
Proof.
  unfold decode, encode.
  rewrite list_ascii_of_string_of_list_ascii, decode_encode_bytes.
  - rewrite map_map. rewrite map_ext with (g := fun c => c) by apply ascii_N_embedding.
    rewrite map_id. apply string_of_list_ascii_of_string.
  - induction (list_ascii_of_string data) as [| c cs IH]; cbn [map]; constructor;
      [apply N_ascii_bounded | exact IH].
Qed.

End Base64Proofs.

(** ** The contract: the fulfillment callback *)

Module VRFNFTProofs.
Import VRFNFT.

(** *** Reasoning on transactions *)

Section Rules.
Context {A : Type} (R : Prop).

Lemma wp_bind {B : Type} (m : Tx A) (f : A -> Tx B) (Q : B -> Storage -> Prop) (s : Storage) :
  wp R m (fun a s' => wp R (f a) Q s') s -> wp R (bind m f) Q s.
Proof. unfold wp, bind. destruct (m s) as [[a s'] | reason]; auto. Qed.

Lemma wp_ret (a : A) (Q : A -> Storage -> Prop) (s : Storage) :
  Q a s -> wp R (ret a) Q s.
Proof. auto. Qed.

Lemma wp_load (field : Storage -> A) (Q : A -> Storage -> Prop) (s : Storage) :
  Q (field s) s -> wp R (load field) Q s.
Proof. auto. Qed.

Lemma wp_ok (tx : Tx A) (Q : A -> Storage -> Prop) (s s' : Storage) (a : A) :
  wp R tx Q s -> tx s = Ok (a, s') -> Q a s'.
Proof. unfold wp. intros HQ Hrun. now rewrite Hrun in HQ. Qed.

End Rules.

Lemma wp_require (R : Prop) (condition : bool) (reason : string)
    (Q : unit -> Storage -> Prop) (s : Storage) :
  (condition = true -> Q tt s) -> (condition = false -> R) ->
  wp R (require condition reason) Q s.
Proof. unfold wp, require. destruct condition; auto. Qed.

Lemma wp_store (R : Prop) (update : Storage -> Storage) (Q : unit -> Storage -> Prop)
    (s : Storage) :
  Q tt (update s) -> wp R (store update) Q s.
Proof. auto. Qed.

Lemma wp_element (R : Prop) (array : list string) (index : Z)
    (Q : string -> Storage -> Prop) (s : Storage) :
  (forall x, nth_error array (Z.to_nat index) = Some x -> Q x s) ->
  (~ (0 <= index < Z.of_nat (length array)) -> R) ->
  wp R (element array index) Q s.
Proof.
  intros HQ HR. unfold wp, element.
  destruct (0 <=? index) eqn:Hle.
  - destruct (nth_error array (Z.to_nat index)) eqn:Hnth; [now apply HQ |].
    apply HR. apply nth_error_None in Hnth. lia.
  - apply HR. lia.
Qed.

Lemma wp_returns {A : Type} (tx : Tx A) (Q : A -> Storage -> Prop) (s : Storage) :
  wp False tx Q s -> exists a s', tx s = Ok (a, s') /\ Q a s'.
Proof. unfold wp. destruct (tx s) as [[a s'] | reason]; [eauto | tauto]. Qed.

Section Fulfillment.
Variable hook : address -> Z -> Result bool.

Lemma wp_acceptance (R : Prop) (to : address) (tokenId : Z)
    (Q : unit -> Storage -> Prop) (s : Storage) :
  (hook to tokenId = Ok true -> Q tt s) -> (hook to tokenId <> Ok true -> R) ->
  wp R (acceptance hook to tokenId) Q s.
Proof.
  unfold wp, acceptance. intros HQ HR.
  destruct (hook to tokenId) as [[|] | reason]; auto; now apply HR.
Qed.

Ltac wp_step :=
  lazymatch goal with
  | |- wp _ (bind _ _) _ _ => apply wp_bind
  | |- wp _ (require _ _) _ _ => apply wp_require; [intros ? | try (intros _; exact I)]
  | |- wp _ (load _) _ _ => apply wp_load
  | |- wp _ (store _) _ _ => apply wp_store
  | |- wp _ (element _ _) _ _ => apply wp_element; [intros ? ? | try (intros _; exact I)]
  | |- wp _ (acceptance _ _ _) _ _ => apply wp_acceptance; [intros ? | try (intros _; exact I)]
  | |- wp _ (ret _) _ _ => apply wp_ret
  end.

(** Reads through the writes of the callback. *)
Ltac storage_norm :=
  unfold update_request, request, recipient, ownerOf, balanceOf, characterIndexOf in *;
  cbn [_tokenIdCounter s_tokenIdToCharacterIndex s_requests s_requestIdToRecipient _owners
       _balances _tokenURIs logs set_tokenIdCounter set_tokenIdToCharacterIndex set_request
       set_recipient delete_recipient set_owner set_balance set_tokenURI] in *;
  rewrite ?lookup_insert_eq in *;
  cbn [default from_option id fulfilled exists_ randomWords] in *.

Ltac bools :=
  repeat match goal with
         | Hc : negb _ = true |- _ => apply negb_true_iff in Hc
         | Hc : negb _ = false |- _ => apply negb_false_iff in Hc
         | Hc : (_ =? _) = false |- _ => apply Z.eqb_neq in Hc
         | Hc : (_ =? _) = true |- _ => apply Z.eqb_eq in Hc
         | Hc : (_ <? _) = false |- _ => apply Z.ltb_ge in Hc
         end.

Lemma selected_range (words : list Z) : 0 <= selected words < 4.
Proof. unfold selected. change (Z.of_nat (length s_characterNames)) with 4. apply Z.mod_pos_bound. lia. Qed.

Lemma fulfillRandomWords_wp (R : Prop) (requestId : Z) (words : list Z) (s : Storage) :
  (~ (exists_ (request s requestId) = true
      /\ fulfilled (request s requestId) = false
      /\ words <> []
      /\ recipient s requestId <> 0
      /\ ownerOf s (_tokenIdCounter s) = 0
      /\ hook (recipient s requestId) (_tokenIdCounter s) = Ok true) -> R) ->
  wp R (fulfillRandomWords hook requestId words) (fun _ s' => Fulfills requestId words s s') s.
Proof.
  intros HR.
  unfold fulfillRandomWords, _safeMint, _mint, _setTokenURI, emit.
  fold (selected words).
  repeat wp_step.
  - (* the storage left *)
    storage_norm. bools.
    split; storage_norm; try assumption; try reflexivity.
    + intros ->. discriminate.
    + now rewrite H.
    + eauto.
    + now rewrite <- !app_assoc.
  - (* the token exists when its URI is set *)
    intros Hc. storage_norm. congruence.
  - intros Hc. exfalso. apply Hc. apply selected_range.
  - intros Hc. exfalso. apply Hc. apply selected_range.
  - intros Hc. apply HR. storage_norm. bools. intros (_ & _ & _ & _ & _ & Hhook). congruence.
  - intros Hc. apply HR. storage_norm. bools. intros (_ & _ & _ & _ & Hown & _). congruence.
  - intros Hc. storage_norm. congruence.
  - intros Hc. apply HR. storage_norm. bools. intros (_ & _ & _ & Hrec & _). congruence.
  - intros Hc. apply HR. intros (_ & _ & Hwords & _).
    destruct words; [congruence | cbn [length] in Hc; bools; lia].
  - intros Hc. apply HR. bools. intros (_ & Hpending & _). congruence.
  - intros Hc. apply HR. intros (Hrecorded & _). congruence.
Qed.

(** Partial correctness: a callback that returns has done exactly this. *)
Lemma fulfillRandomWords_ok (requestId : Z) (words : list Z) (s s' : Storage) (u : unit) :
  fulfillRandomWords hook requestId words s = Ok (u, s') ->
  Fulfills requestId words s s'.
Proof.
  intros Hrun.
  exact (wp_ok True _ _ _ _ _ (fulfillRandomWords_wp True requestId words s (fun _ => I)) Hrun).
Qed.

(** The callback returns for a pending request with a recipient, at least
    one word, a fresh token id and a recipient that accepts the token. *)
Lemma fulfillRandomWords_returns (requestId : Z) (words : list Z) (s : Storage) :
  exists_ (request s requestId) = true ->
  fulfilled (request s requestId) = false ->
  words <> [] ->
  recipient s requestId <> 0 ->
  ownerOf s (_tokenIdCounter s) = 0 ->
  hook (recipient s requestId) (_tokenIdCounter s) = Ok true ->
  exists s', fulfillRandomWords hook requestId words s = Ok (tt, s')
             /\ Fulfills requestId words s s'.
Proof.
  intros Hrecorded Hpending Hwords Hrecipient Hfresh Haccepts.
  destruct (wp_returns _ _ s (fulfillRandomWords_wp False requestId words s
              (fun Hno => Hno (conj Hrecorded (conj Hpending (conj Hwords
                 (conj Hrecipient (conj Hfresh Haccepts))))))))
    as ([] & s' & Hrun & Hdone).
  eauto.
Qed.

(** *** The claims on the callback *)

(** C4 (amended).  A callback for a request id that was never recorded reverts
    with "Request not found"; the revert leaves the storage as it was. *)
Theorem unknown_request_reverts (requestId : Z) (words : list Z) (s : Storage) :
  exists_ (request s requestId) = false ->
  fulfillRandomWords hook requestId words s = Revert "Request not found"
  /\ after (fulfillRandomWords hook requestId words) s = s.
Proof.
  intros Hunknown.
  assert (Hrun : fulfillRandomWords hook requestId words s = Revert "Request not found").
  { unfold fulfillRandomWords, bind, load, require. now rewrite Hunknown. }
  split; [exact Hrun |]. unfold after. now rewrite Hrun.
Qed.

(** C5 (amended).  A duplicate callback is refused, not ignored.  Once a
    callback for a request has returned, the request is recorded as fulfilled
    with the words of that callback; every further callback for the same id,
    with any words and whatever the recipient would answer, reverts with
    "Request already fulfilled" at the second guard, before anything is
    written.  The storage stays as the first callback left it: the result is
    not applied again. *)
Theorem duplicate_callback_is_refused (requestId : Z) (words : list Z) (s s' : Storage)
    (u : unit) :
  fulfillRandomWords hook requestId words s = Ok (u, s') ->
  request s' requestId = mkRequest true true words
  /\ forall (hook' : address -> Z -> Result bool) (words' : list Z),
       fulfillRandomWords hook' requestId words' s' = Revert "Request already fulfilled"
       /\ after (fulfillRandomWords hook' requestId words') s' = s'.
Proof.
  intros Hrun. apply fulfillRandomWords_ok in Hrun.
  pose proof (request_after _ _ _ _ Hrun) as Hafter.
  split; [exact Hafter |].
  intros hook' words'.
  assert (Hdup : fulfillRandomWords hook' requestId words' s'
                 = Revert "Request already fulfilled").
  { unfold fulfillRandomWords, bind, load, require. now rewrite Hafter. }
  split; [exact Hdup |]. unfold after. now rewrite Hdup.
Qed.

(** C8.  When the callback returns, the character index stored for the new
    token, and announced in [NFTMinted], is the first delivered word modulo
    the number of characters, which is 4; nothing else enters the choice. *)
Theorem character_index_is_word_modulo_count (requestId : Z) (words : list Z)
    (s s' : Storage) (u : unit) :
  fulfillRandomWords hook requestId words s = Ok (u, s') ->
  exists word rest,
    words = word :: rest
    /\ Z.of_nat (length s_characterNames) = 4
    /\ characterIndexOf s' (_tokenIdCounter s) = word mod 4
    /\ In (NFTMinted requestId (recipient s requestId) (_tokenIdCounter s) (word mod 4))
          (logs s')
    /\ 0 <= word mod 4 < 4.
Proof.
  intros Hrun. apply fulfillRandomWords_ok in Hrun.
  destruct Hrun as [_ _ Hwords _ _ _ Hindex _ _ _ _ Hlogs].
  destruct words as [| word rest]; [congruence |].
  exists word, rest. repeat split.
  - unfold characterIndexOf. rewrite Hindex, lookup_insert_eq. reflexivity.
  - rewrite Hlogs. apply in_or_app. right. cbn [In]. tauto.
  - apply Z.mod_pos_bound. lia.
  - apply Z.mod_pos_bound. lia.
Qed.

(** *** Further properties of the request and the callback *)

(** What a request that returns has written. *)
Lemma requestNFT_ok (sender : address) (msg_value vrfFee : Z) (requested : Result Z)
    (_recipient : address) (s s' : Storage) (requestId : Z) :
  requestNFT sender msg_value vrfFee requested _recipient s = Ok (requestId, s') ->
  _recipient <> 0
  /\ vrfFee + _MINT_PRICE < uint256_modulus
  /\ vrfFee + _MINT_PRICE <= msg_value
  /\ requested = Ok requestId
  /\ s' = mkStorage (_tokenIdCounter s) (s_tokenIdToCharacterIndex s)
            (<[requestId := mkRequest false true []]> (s_requests s))
            (<[requestId := _recipient]> (s_requestIdToRecipient s))
            (_owners s) (_balances s) (_tokenURIs s)
            (logs s ++ [RequestSent requestId sender vrfFee]).
Proof using.
  unfold requestNFT, bind, require, store, emit, ret.
  destruct (negb (_recipient =? 0)) eqn:Hrecipient; [| discriminate].
  destruct (vrfFee + _MINT_PRICE <? uint256_modulus) eqn:Hsum; [| discriminate].
  destruct (vrfFee + _MINT_PRICE <=? msg_value) eqn:Hpaid; [| discriminate].
  destruct requested as [id | reason]; [| discriminate].
  intros [= <- <-]. bools.
  repeat split; try assumption; lia.
Qed.



(** X9. The guards of [requestNFT].  It returns the id the wrapper assigned
    exactly when the recipient is not the zero address, the price of the VRF
    request plus the mint price fits a uint256 and is covered by the value
    sent, and the wrapper accepted the request; otherwise nothing is
    written. *)
Theorem requestNFT_returns_iff (sender : address) (msg_value vrfFee : Z)
    (requested : Result Z) (_recipient : address) (s : Storage) (requestId : Z) :
  ((exists s', requestNFT sender msg_value vrfFee requested _recipient s = Ok (requestId, s'))
   <-> _recipient <> 0
       /\ vrfFee + getMintPrice < uint256_modulus
       /\ vrfFee + getMintPrice <= msg_value
       /\ requested = Ok requestId)
  /\ (_recipient = 0 ->
      requestNFT sender msg_value vrfFee requested _recipient s
      = Revert "Recipient cannot be zero address")
  /\ (_recipient <> 0 -> vrfFee + getMintPrice < uint256_modulus ->
      msg_value < vrfFee + getMintPrice ->
      requestNFT sender msg_value vrfFee requested _recipient s
      = Revert "Insufficient payment (VRF fee + mint price)").
Proof using.
  clear hook. unfold getMintPrice. split; [split |].
  - intros [s' Hrun]. apply requestNFT_ok in Hrun. tauto.
  - intros (Hrecipient & Hfits & Hpaid & ->).
    unfold requestNFT, bind, require, store, emit, ret.
    apply Z.eqb_neq in Hrecipient. apply Z.ltb_lt in Hfits. apply Z.leb_le in Hpaid.
    rewrite Hrecipient, Hfits, Hpaid. cbn [negb]. eauto.
  - split.
    + intros ->. reflexivity.
    + intros Hrecipient Hfits Hunpaid.
      unfold requestNFT, bind, require.
      apply Z.eqb_neq in Hrecipient. apply Z.ltb_lt in Hfits. apply Z.leb_gt in Hunpaid.
      now rewrite Hrecipient, Hfits, Hunpaid.
Qed.

(** The request map after a callback that returns: one entry is replaced. *)
Lemma fulfillRandomWords_requests (requestId : Z) (words : list Z) (s s' : Storage) (u : unit) :
  fulfillRandomWords hook requestId words s = Ok (u, s') ->
  s_requests s' = <[requestId := mkRequest true true words]> (s_requests s)
  /\ ownerOf s (_tokenIdCounter s) = 0
  /\ hook (recipient s requestId) (_tokenIdCounter s) = Ok true.
Proof.
  apply (wp_ok True (fulfillRandomWords hook requestId words)
           (fun _ st =>
              s_requests st = <[requestId := mkRequest true true words]> (s_requests s)
              /\ ownerOf s (_tokenIdCounter s) = 0
              /\ hook (recipient s requestId) (_tokenIdCounter s) = Ok true)).
  unfold fulfillRandomWords, _safeMint, _mint, _setTokenURI, emit.
  repeat wp_step.
  storage_norm. bools. rewrite insert_insert_eq.
  match goal with Hrecorded : exists_ _ = true |- _ => rewrite Hrecorded end.
  auto.
Qed.

(** The guards of the callback that follow the two on the request status. *)
Lemma fulfillRandomWords_later_guards (requestId : Z) (words : list Z) (s : Storage) :
  exists_ (request s requestId) = true ->
  fulfilled (request s requestId) = false ->
  (words = [] ->
   fulfillRandomWords hook requestId words s = Revert "No random words received")
  /\ (words <> [] -> recipient s requestId = 0 ->
      fulfillRandomWords hook requestId words s = Revert "Recipient address cannot be zero").
Proof.
  intros Hrecorded Hpending.
  unfold fulfillRandomWords, bind, load, require, store.
  rewrite Hrecorded, Hpending. cbn [negb]. split.
  - intros ->. reflexivity.
  - intros Hwords Hzero. destruct words as [| word rest]; [congruence |].
    cbn [length]. replace (0 <? Z.of_nat (S (length rest))) with true
      by (symmetry; apply Z.ltb_lt; lia).
    storage_norm. unfold recipient in Hzero. now rewrite Hzero.
Qed.

(** X10. The callback needs a word.  For a pending request, a delivery without
    words reverts with "No random words received", and a delivery for a
    request whose recipient is the zero address reverts with "Recipient
    address cannot be zero"; either way the request stays pending. *)
Theorem callback_without_words_reverts (requestId : Z) (words : list Z) (s : Storage) :
  exists_ (request s requestId) = true ->
  fulfilled (request s requestId) = false ->
  words = [] \/ recipient s requestId = 0 ->
  (exists reason, fulfillRandomWords hook requestId words s = Revert reason
                  /\ (words = [] -> reason = "No random words received"%string)
                  /\ (words <> [] -> reason = "Recipient address cannot be zero"%string))
  /\ after (fulfillRandomWords hook requestId words) s = s.
Proof.
  intros Hrecorded Hpending Hwhy.
  destruct (fulfillRandomWords_later_guards requestId words s Hrecorded Hpending)
    as [Hempty Hzero].
  assert (Hrun : exists reason,
             fulfillRandomWords hook requestId words s = Revert reason
             /\ (words = [] -> reason = "No random words received"%string)
             /\ (words <> [] -> reason = "Recipient address cannot be zero"%string)).
  { destruct words as [| word rest].
    - eexists. split; [now apply Hempty |]. split; [reflexivity | congruence].
    - destruct Hwhy as [? | Hrecipient]; [discriminate |].
      eexists. split; [now apply Hzero |]. split; [discriminate | reflexivity]. }
  split; [exact Hrun |].
  destruct Hrun as (reason & Hrun & _). unfold after. now rewrite Hrun.
Qed.

(** X11. The callback touches one request and one token.  When it returns, every
    other request keeps its status and its recipient, and every token other
    than the new one keeps its owner, its character and its URI. *)
Theorem callback_leaves_others (requestId : Z) (words : list Z) (s s' : Storage) (u : unit) :
  fulfillRandomWords hook requestId words s = Ok (u, s') ->
  (forall other, other <> requestId ->
     request s' other = request s other /\ recipient s' other = recipient s other)
  /\ (forall tokenId, tokenId <> _tokenIdCounter s ->
        ownerOf s' tokenId = ownerOf s tokenId
        /\ characterIndexOf s' tokenId = characterIndexOf s tokenId
        /\ _tokenURIs s' !! tokenId = _tokenURIs s !! tokenId).
Proof.
  intros Hrun.
  destruct (fulfillRandomWords_requests _ _ _ _ _ Hrun) as (Hrequests & _ & _).
  apply fulfillRandomWords_ok in Hrun.
  destruct Hrun as [_ _ _ _ _ _ Hindex Hrecipients Howners _ Huri _].
  split.
  - intros other Hother. unfold request, recipient.
    rewrite Hrequests, Hrecipients, lookup_insert_ne, lookup_delete_ne by congruence.
    split; reflexivity.
  - intros tokenId Htoken. unfold ownerOf, characterIndexOf.
    destruct Huri as (name & image & _ & _ & Huri).
    rewrite Howners, Hindex, Huri, !lookup_insert_ne by congruence.
    repeat split.
Qed.

(** How a returning callback keeps the unused token ids unowned. *)
Lemma fulfillRandomWords_keeps_fresh (requestId : Z) (words : list Z) (s s' : Storage)
    (u : unit) :
  Fresh s -> _tokenIdCounter s + 1 < uint256_modulus ->
  fulfillRandomWords hook requestId words s = Ok (u, s') ->
  Fresh s' /\ _tokenIdCounter s' = _tokenIdCounter s + 1.
Proof.
  intros [Hcounter Hfresh] Hroom Hrun. apply fulfillRandomWords_ok in Hrun.
  destruct Hrun as [_ _ _ _ _ Hnext _ _ Howners _ _ _].
  rewrite Z.mod_small in Hnext by lia.
  split; [| exact Hnext]. split; [lia |].
  intros tokenId Hge. unfold ownerOf. rewrite Howners, lookup_insert_ne by lia.
  apply Hfresh. lia.
Qed.

Lemma requestNFT_keeps_fresh (sender : address) (msg_value vrfFee : Z) (requested : Result Z)
    (_recipient : address) (s s' : Storage) (requestId : Z) :
  Fresh s ->
  requestNFT sender msg_value vrfFee requested _recipient s = Ok (requestId, s') ->
  Fresh s'.
Proof using.
  intros Hfresh Hrun. apply requestNFT_ok in Hrun as (_ & _ & _ & _ & ->). exact Hfresh.
Qed.

Lemma deployed_fresh : Fresh deployed.
Proof using. split; [reflexivity |]. intros tokenId _. reflexivity. Qed.

Lemma deployed_correlated : Correlated deployed.
Proof using.
  intros requestId. unfold recipient, request, deployed.
  cbn [s_requests s_requestIdToRecipient]. rewrite !lookup_empty. cbn.
  split; [congruence | intros [[=] _]].
Qed.

(** X12. Token ids are handed out in sequence and never twice.  On the deployed
    contract no token id from the counter upwards is owned; a request keeps
    that, and so does a callback that returns, which moves the counter up by
    one (as long as it stays below 2^256). *)
Theorem token_ids_stay_fresh :
  Fresh deployed
  /\ (forall sender msg_value vrfFee requested _recipient s s' requestId,
        Fresh s ->
        requestNFT sender msg_value vrfFee requested _recipient s = Ok (requestId, s') ->
        Fresh s')
  /\ (forall requestId words s s' u,
        Fresh s -> _tokenIdCounter s + 1 < uint256_modulus ->
        fulfillRandomWords hook requestId words s = Ok (u, s') ->
        Fresh s' /\ _tokenIdCounter s' = _tokenIdCounter s + 1).
Proof.
  split; [| split].
  - exact deployed_fresh.
  - intros. eapply requestNFT_keeps_fresh; eassumption.
  - intros. eapply fulfillRandomWords_keeps_fresh; eassumption.
Qed.

Lemma fulfillRandomWords_keeps_correlated (requestId : Z) (words : list Z) (s s' : Storage)
    (u : unit) :
  Correlated s ->
  fulfillRandomWords hook requestId words s = Ok (u, s') ->
  Correlated s'.
Proof.
  intros Hcorrelated Hrun other.
  destruct (fulfillRandomWords_requests _ _ _ _ _ Hrun) as (Hrequests & _ & _).
  apply fulfillRandomWords_ok in Hrun.
  destruct Hrun as [_ _ _ _ Hafter _ _ Hrecipients _ _ _ _].
  destruct (decide (other = requestId)) as [-> | Hother].
  - unfold recipient. rewrite Hrecipients, lookup_delete_eq, Hafter. cbn.
    split; [congruence | intros [_ [=]]].
  - specialize (Hcorrelated other). unfold request, recipient in *.
    now rewrite Hrequests, Hrecipients, lookup_insert_ne, lookup_delete_ne by congruence.
Qed.

Lemma requestNFT_keeps_correlated (sender : address) (msg_value vrfFee : Z)
    (requested : Result Z) (_recipient : address) (s s' : Storage) (requestId : Z) :
  Correlated s ->
  requestNFT sender msg_value vrfFee requested _recipient s = Ok (requestId, s') ->
  Correlated s'.
Proof using.
  clear hook. intros Hcorrelated Hrun other.
  apply requestNFT_ok in Hrun as (Hrecipient & _ & _ & _ & ->).
  unfold request, recipient. cbn [s_requests s_requestIdToRecipient].
  destruct (decide (other = requestId)) as [-> | Hother].
  - rewrite !lookup_insert_eq. cbn. tauto.
  - rewrite !lookup_insert_ne by congruence. apply Hcorrelated.
Qed.

(** X13. The correlation table follows the request ledger.  A request id has a
    recipient exactly while its request is recorded and not fulfilled: this
    holds on the deployed contract and is kept by every request and by every
    callback that returns. *)
Theorem recipients_follow_requests :
  Correlated deployed
  /\ (forall sender msg_value vrfFee requested _recipient s s' requestId,
        Correlated s ->
        requestNFT sender msg_value vrfFee requested _recipient s = Ok (requestId, s') ->
        Correlated s')
  /\ (forall requestId words s s' u,
        Correlated s ->
        fulfillRandomWords hook requestId words s = Ok (u, s') ->
        Correlated s').
Proof.
  split; [| split].
  - exact deployed_correlated.
  - intros. eapply requestNFT_keeps_correlated; eassumption.
  - intros. eapply fulfillRandomWords_keeps_correlated; eassumption.
Qed.

(** X14. A pending request can be fulfilled.  In a storage where the unused
    token ids are unowned and recipients follow requests, a callback for a
    pending request that delivers at least one word returns as soon as the
    recipient accepts the token. *)
Theorem pending_request_is_fulfillable (requestId : Z) (words : list Z) (s : Storage) :
  Fresh s -> Correlated s ->
  exists_ (request s requestId) = true ->
  fulfilled (request s requestId) = false ->
  words <> [] ->
  hook (recipient s requestId) (_tokenIdCounter s) = Ok true ->
  exists s', fulfillRandomWords hook requestId words s = Ok (tt, s')
             /\ ownerOf s' (_tokenIdCounter s) = recipient s requestId
             /\ fulfilled (request s' requestId) = true.
Proof.
  intros [Hcounter Hfresh] Hcorrelated Hrecorded Hpending Hwords Haccepts.
  destruct (fulfillRandomWords_returns requestId words s) as (s' & Hrun & Hdone);
    try assumption.
  - now apply Hcorrelated.
  - apply Hfresh. lia.
  - exists s'. split; [exact Hrun |].
    destruct Hdone as [_ _ _ _ Hafter _ _ _ Howners _ _ _].
    split.
    + unfold ownerOf at 1. now rewrite Howners, lookup_insert_eq.
    + now rewrite Hafter.
Qed.


(** X16. The token URI carries the metadata of the selected character.  After a
    callback that returned, [tokenURI] of the new token is a data URI
    [data:application/json;base64,<payload>], and decoding the payload gives
    the JSON metadata built from the name and the image at the selected index
    and from the token id. *)
Theorem token_uri_decodes_to_metadata (requestId : Z) (words : list Z) (s s' : Storage)
    (u : unit) :
  fulfillRandomWords hook requestId words s = Ok (u, s') ->
  exists characterName characterImageURI payload,
    nth_error s_characterNames (Z.to_nat (hd 0 words mod 4)) = Some characterName
    /\ nth_error s_characterImages (Z.to_nat (hd 0 words mod 4)) = Some characterImageURI
    /\ tokenURI (_tokenIdCounter s) s'
       = Ok (("data:application/json;base64," +:+ payload)%string, s')
    /\ Base64.decode payload
       = metadata characterName characterImageURI (_tokenIdCounter s).
Proof.
  intros Hrun. apply fulfillRandomWords_ok in Hrun.
  destruct Hrun as [_ _ _ Hrecipient _ _ _ _ Howners _ Huri _].
  destruct Huri as (name & image & Hname & Himage & Huri).
  exists name, image, (Base64.encode (metadata name image (_tokenIdCounter s))).
  split; [exact Hname |]. split; [exact Himage |]. split.
  - unfold tokenURI, bind, load, require, ownerOf.
    rewrite Howners, lookup_insert_eq. cbn [default from_option id].
    apply Z.eqb_neq in Hrecipient. rewrite Hrecipient. cbn [negb].
    now rewrite Huri, lookup_insert_eq.
  - apply Base64Proofs.decode_encode.
Qed.

End Fulfillment.

(** *** The owner's functions *)

(** X17. Only the owner changes the VRF configuration.  For the owner,
    [setCallbackGasLimit] and [setRequestConfirmations] return and
    [getRequestConfig] then shows the new value beside the key hash, the other
    setting and numWords = 1, all unchanged; for anyone else both revert with
    "Ownable: caller is not the owner". *)
Theorem settings_change_only_by_owner (sender : address) (v : Z) (st : Settings) :
  (sender = _owner st ->
   exists st1 st2,
     setCallbackGasLimit sender v st = Ok st1
     /\ getRequestConfig st1 = (_keyHash st, v, _requestConfirmations st, 1)
     /\ setRequestConfirmations sender v st = Ok st2
     /\ getRequestConfig st2 = (_keyHash st, _callbackGasLimit st, v, 1)
     /\ _owner st1 = _owner st /\ _owner st2 = _owner st
     /\ balance st1 = balance st /\ balance st2 = balance st)
  /\ (sender <> _owner st ->
      setCallbackGasLimit sender v st = Revert "Ownable: caller is not the owner"
      /\ setRequestConfirmations sender v st = Revert "Ownable: caller is not the owner").
Proof.
  unfold setCallbackGasLimit, setRequestConfirmations, onlyOwner. split.
  - intros ->. rewrite Z.eqb_refl. do 2 eexists. repeat split.
  - intros Hother. apply Z.eqb_neq in Hother. now rewrite Hother.
Qed.

(** X18. [withdrawNative] sends the whole balance or nothing.  It returns
    exactly when the caller is the owner, the balance is positive and the
    transfer to [to] succeeds; the amount sent is then the whole balance, the
    balance left is 0 and the configuration is unchanged.  On an empty balance
    the owner gets "No native balance to withdraw". *)
Theorem withdrawNative_sends_whole_balance (accepts : address -> Z -> bool)
    (sender to : address) (st : Settings) :
  (forall st' amount,
      withdrawNative accepts sender to st = Ok (st', amount)
      <-> sender = _owner st /\ 0 < balance st /\ accepts to (balance st) = true
          /\ amount = balance st
          /\ st' = mkSettings (_owner st) (_keyHash st) (_callbackGasLimit st)
                     (_requestConfirmations st) 0)
  /\ (sender = _owner st -> balance st <= 0 ->
      withdrawNative accepts sender to st = Revert "No native balance to withdraw")
  /\ (sender <> _owner st ->
      withdrawNative accepts sender to st = Revert "Ownable: caller is not the owner").
Proof.
  unfold withdrawNative, onlyOwner. split; [| split].
  - intros st' amount. split.
    + destruct (sender =? _owner st) eqn:Howner; [| discriminate].
      destruct (0 <? balance st) eqn:Hfunds; [| discriminate].
      destruct (accepts to (balance st)) eqn:Haccepts; [| discriminate].
      cbn [negb]. intros [= <- <-]. rewrite Z.sub_diag. repeat split; lia.
    + intros (-> & Hfunds & Haccepts & -> & ->).
      apply Z.ltb_lt in Hfunds. rewrite Z.eqb_refl, Hfunds, Haccepts. cbn [negb].
      now rewrite Z.sub_diag.
  - intros -> Hempty. rewrite Z.eqb_refl.
    replace (0 <? balance st) with false by (symmetry; apply Z.ltb_ge; lia). reflexivity.
  - intros Hother. apply Z.eqb_neq in Hother. now rewrite Hother.
Qed.

(** *** The claims at concrete storages *)

(** C4 as stated fails: on the deployed contract no request is recorded, and
    a callback for request 7 does not return. *)
Lemma unknown_request_throws :
  exists_ (request deployed 7) = false
  /\ ~ returns_unchanged accepting 7 [1] deployed.
Proof. split; [reflexivity | discriminate]. Qed.

(** C4 (amended) on the deployed contract. *)
Lemma unknown_request_reverts_witness :
  fulfillRandomWords accepting 7 [1] deployed = Revert "Request not found"
  /\ after (fulfillRandomWords accepting 7 [1]) deployed = deployed.
Proof. apply (unknown_request_reverts accepting 7 [1] deployed). reflexivity. Defined.

(** C5 as stated fails: after the callback for the pending request 77 has
    delivered the word 10, the request has fulfilled = true, and a second
    delivery of the same word does not return. *)
Lemma duplicate_callback_throws :
  fulfillRandomWords accepting 77 [10] pending
  = Ok (tt, after (fulfillRandomWords accepting 77 [10]) pending)
  /\ fulfilled (request (after (fulfillRandomWords accepting 77 [10]) pending) 77) = true
  /\ ~ returns_unchanged accepting 77 [10]
         (after (fulfillRandomWords accepting 77 [10]) pending).
Proof.
  split; [vm_compute; reflexivity |].
  split; [vm_compute; reflexivity |].
  unfold returns_unchanged. vm_compute. discriminate.
Qed.

(** C5 (amended) on the pending request 77: the second delivery of the word
    10 is refused, and so is a delivery of another word to a recipient that
    would refuse the token. *)
Lemma duplicate_callback_is_refused_witness :
  let once := after (fulfillRandomWords accepting 77 [10]) pending in
  request once 77 = mkRequest true true [10]
  /\ fulfillRandomWords accepting 77 [10] once = Revert "Request already fulfilled"
  /\ after (fulfillRandomWords accepting 77 [10]) once = once
  /\ fulfillRandomWords (fun _ _ => Ok false) 77 [11] once
     = Revert "Request already fulfilled".
Proof.
  intros once.
  destruct (duplicate_callback_is_refused accepting 77 [10] pending once tt)
    as [Hdone Hrefused]; [vm_compute; reflexivity |].
  split; [exact Hdone |].
  split; [exact (proj1 (Hrefused accepting [10])) |].
  split; [exact (proj2 (Hrefused accepting [10])) |].
  exact (proj1 (Hrefused (fun _ _ => Ok false) [11])).
Defined.

(** C8 on the pending request 77: the word 10 selects character 2. *)
Lemma character_index_is_word_modulo_count_witness :
  let once := after (fulfillRandomWords accepting 77 [10]) pending in
  exists word rest,
    [10] = word :: rest
    /\ Z.of_nat (length s_characterNames) = 4
    /\ characterIndexOf once 0 = word mod 4
    /\ In (NFTMinted 77 1234 0 (word mod 4)) (logs once)
    /\ 0 <= word mod 4 < 4.
Proof.
  intros once.
  apply (character_index_is_word_modulo_count accepting 77 [10] pending once tt).
  vm_compute. reflexivity.
Defined.


(** X10, [callback_without_words_reverts], on the pending request 77. *)
Lemma callback_without_words_reverts_witness :
  fulfillRandomWords accepting 77 [] pending = Revert "No random words received"
  /\ after (fulfillRandomWords accepting 77 []) pending = pending.
Proof.
  destruct (callback_without_words_reverts accepting 77 [] pending eq_refl eq_refl
              (or_introl eq_refl)) as [(reason & Hrun & Hempty & _) Hafter].
  rewrite (Hempty eq_refl) in Hrun. split; [exact Hrun | exact Hafter].
Defined.

(** X11, [callback_leaves_others], on the pending request 77. *)
Lemma callback_leaves_others_witness :
  let once := after (fulfillRandomWords accepting 77 [10]) pending in
  (forall other, other <> 77 ->
     request once other = request pending other
     /\ recipient once other = recipient pending other)
  /\ (forall tokenId, tokenId <> 0 ->
        ownerOf once tokenId = ownerOf pending tokenId
        /\ characterIndexOf once tokenId = characterIndexOf pending tokenId
        /\ _tokenURIs once !! tokenId = _tokenURIs pending !! tokenId).
Proof.
  intros once.
  apply (callback_leaves_others accepting 77 [10] pending once tt).
  vm_compute. reflexivity.
Defined.

(** X14, [pending_request_is_fulfillable], on the pending request 77. *)
Lemma pending_request_is_fulfillable_witness :
  exists s', fulfillRandomWords accepting 77 [10] pending = Ok (tt, s')
             /\ ownerOf s' 0 = 1234
             /\ fulfilled (request s' 77) = true.
Proof.
  apply (pending_request_is_fulfillable accepting 77 [10] pending).
  - apply (requestNFT_keeps_fresh 9 (10 ^ 16) 5 (Ok 77) 1234 deployed pending 77);
      [exact deployed_fresh | reflexivity].
  - apply (requestNFT_keeps_correlated 9 (10 ^ 16) 5 (Ok 77) 1234 deployed pending 77);
      [exact deployed_correlated | reflexivity].
  - reflexivity.
  - reflexivity.
  - discriminate.
  - reflexivity.
Defined.


(** X16, [token_uri_decodes_to_metadata], on the pending request 77: the word 10
    selects the third character. *)
Lemma token_uri_decodes_to_metadata_witness :
  let once := after (fulfillRandomWords accepting 77 [10]) pending in
  exists payload,
    tokenURI 0 once = Ok (("data:application/json;base64," +:+ payload)%string, once)
    /\ Base64.decode payload
       = metadata "Chainlink Orc"
           "https://ipfs.io/ipfs/QmW1toapYs7M29rzLXTENn3pbvwe8ioikX1PwzACzjfdHP?filename=Chainlink_Orc.png"
           0.
Proof.
  intros once.
  destruct (token_uri_decodes_to_metadata accepting 77 [10] pending once tt)
    as (name & image & payload & Hname & Himage & Huri & Hdecode);
    [vm_compute; reflexivity |].
  injection Hname as <-. injection Himage as <-.
  exists payload. split; [exact Huri | exact Hdecode].
Defined.

(** X9, [requestNFT_returns_iff], on the deployed contract: a request paid
    with less than the fee and the mint price is refused. *)
Lemma requestNFT_returns_iff_witness :
  requestNFT 9 (5 + 10 ^ 14 - 1) 5 (Ok 77) 1234 deployed
  = Revert "Insufficient payment (VRF fee + mint price)"
  /\ exists s', requestNFT 9 (5 + 10 ^ 14) 5 (Ok 77) 1234 deployed = Ok (77, s').
Proof.
  split.
  - apply (proj2 (proj2 (requestNFT_returns_iff 9 (5 + 10 ^ 14 - 1) 5 (Ok 77) 1234
                           deployed 77))); [discriminate | reflexivity | reflexivity].
  - apply (proj1 (requestNFT_returns_iff 9 (5 + 10 ^ 14) 5 (Ok 77) 1234 deployed 77)).
    repeat split; try discriminate.
Defined.

(** X12, [token_ids_stay_fresh], along a request and its callback. *)
Lemma token_ids_stay_fresh_witness :
  let once := after (fulfillRandomWords accepting 77 [10]) pending in
  Fresh once /\ _tokenIdCounter once = 1.
Proof.
  intros once.
  destruct (token_ids_stay_fresh accepting) as (Hdeployed & Hrequest & Hcallback).
  apply (Hcallback 77 [10] pending once tt).
  - apply (Hrequest 9 (10 ^ 16) 5 (Ok 77) 1234 deployed pending 77 Hdeployed). reflexivity.
  - reflexivity.
  - vm_compute. reflexivity.
Defined.

(** X13, [recipients_follow_requests], along a request and its callback. *)
Lemma recipients_follow_requests_witness :
  Correlated (after (fulfillRandomWords accepting 77 [10]) pending).
Proof.
  destruct (recipients_follow_requests accepting) as (Hdeployed & Hrequest & Hcallback).
  apply (Hcallback 77 [10] pending _ tt).
  - apply (Hrequest 9 (10 ^ 16) 5 (Ok 77) 1234 deployed pending 77 Hdeployed). reflexivity.
  - vm_compute. reflexivity.
Defined.

(** X17, [settings_change_only_by_owner], for the deployer 9 and a stranger. *)
Lemma settings_change_only_by_owner_witness :
  (exists st1, setCallbackGasLimit 9 200000 (constructor 9 1 100000 3) = Ok st1
               /\ getRequestConfig st1 = (1, 200000, 3, 1))
  /\ setCallbackGasLimit 8 200000 (constructor 9 1 100000 3)
     = Revert "Ownable: caller is not the owner".
Proof.
  split.
  - destruct (proj1 (settings_change_only_by_owner 9 200000 (constructor 9 1 100000 3))
                eq_refl) as (st1 & st2 & Hset & Hget & _).
    exists st1. split; [exact Hset | exact Hget].
  - apply (proj2 (settings_change_only_by_owner 8 200000 (constructor 9 1 100000 3))).
    discriminate.
Defined.

(** X18, [withdrawNative_sends_whole_balance], on a balance of 500. *)
Lemma withdrawNative_sends_whole_balance_witness :
  withdrawNative (fun _ _ => true) 9 9 (mkSettings 9 1 100000 3 500)
  = Ok (mkSettings 9 1 100000 3 0, 500)
  /\ withdrawNative (fun _ _ => true) 9 9 (mkSettings 9 1 100000 3 0)
     = Revert "No native balance to withdraw".
Proof.
  split.
  - apply (proj1 (withdrawNative_sends_whole_balance (fun _ _ => true) 9 9
                    (mkSettings 9 1 100000 3 500))).
    repeat split.
  - apply (proj1 (proj2 (withdrawNative_sends_whole_balance (fun _ _ => true) 9 9
                           (mkSettings 9 1 100000 3 0)))); [reflexivity | discriminate].
Defined.

End VRFNFTProofs.

(** ** The settle route *)

Module SettleRouteProofs.
Import JS SettleRoute.

Section Route.
Context `{Gate.Platform}.
Variables Wallet PaymentDetails : Type.

(** X19. A server without its key settles nothing.  The route answers 500
    exactly when PRIVATE_KEY is unset or empty; it has then only logged the
    error: no signer was created, the body was not read and [settle] was not
    called.  Every other response it returns is a 200. *)
Theorem missing_key_is_configuration_error (env : Env Wallet PaymentDetails) :
  ((exists response, (POST Wallet PaymentDetails env).2 = Gate.Fulfilled response
                     /\ Gate.status response = 500)
   <-> PRIVATE_KEY _ _ env = None \/ PRIVATE_KEY _ _ env = Some EmptyString)
  /\ (PRIVATE_KEY _ _ env = None \/ PRIVATE_KEY _ _ env = Some EmptyString ->
      POST Wallet PaymentDetails env
      = ([LoggedError _ _ "PRIVATE_KEY environment variable is not set."],
         Gate.Fulfilled
           (Gate.mkResponse 500
              (JObj [("error", JStr "Server configuration error: Missing private key.")]))))
  /\ (forall response,
        (POST Wallet PaymentDetails env).2 = Gate.Fulfilled response ->
        Gate.status response = 500 \/ Gate.status response = 200).
Proof.
  unfold POST.
  repeat match goal with
         | |- context [match ?x with _ => _ end] => destruct x eqn:?
         end;
    cbn [fst snd];
    (split; [split; [intros (response & Hresponse & Hstatus) | intros [Hkey | Hkey]]
            | split; [intros [Hkey | Hkey] | intros response Hresponse]]);
    try discriminate; try (injection Hresponse as <-); try discriminate;
    try reflexivity; auto; try (eexists; split; reflexivity).
Qed.

(** X20. [settle] is called once, with what the request carried.  When the
    route calls [settle], the key was set, the signer built from it, the body
    read and its [details] accepted by the schema; [settle] gets that signer,
    the [payload] of the body and the parsed details, it is the only such
    call, and the route returns its result as a 200 body, or throws what it
    threw. *)
Theorem settle_follows_parsing (env : Env Wallet PaymentDetails) (wallet : Wallet)
    (payload : JsResult) (details : PaymentDetails) :
  In (CalledSettle _ _ wallet payload details) (POST Wallet PaymentDetails env).1 ->
  exists privateKey body,
    PRIVATE_KEY _ _ env = Some privateKey
    /\ privateKey <> EmptyString
    /\ createSignerSepolia _ _ env privateKey = Gate.Fulfilled wallet
    /\ req_json _ _ env = Gate.Fulfilled body
    /\ paymentDetailsSchema_parse _ _ env (read body "details") = Gate.Fulfilled details
    /\ payload = read body "payload"
    /\ length (filter (fun step => is_settle_step _ _ step = true)
                 (POST Wallet PaymentDetails env).1) = 1%nat
    /\ (POST Wallet PaymentDetails env).2
       = match settle _ _ env wallet payload details with
         | Gate.Fulfilled response => Gate.Fulfilled (Gate.mkResponse 200 response)
         | Gate.Rejected err => Gate.Rejected err
         end.
Proof.
  unfold POST.
  destruct (PRIVATE_KEY _ _ env) as [[| c key] |];
    [intros [[=] | []] | | intros [[=] | []]].
  destruct (createSignerSepolia _ _ env (String c key)) as [signer | err] eqn:Hsigner;
    [| intros [[=] | []]].
  destruct (req_json _ _ env) as [body | err] eqn:Hbody;
    [| intros [[=] | [[=] | []]]].
  assert (Hparsed :
    In (CalledSettle _ _ wallet payload details)
       (match paymentDetailsSchema_parse _ _ env (read body "details") with
        | Gate.Rejected err =>
            ([CreatedSigner _ _ (String c key); ReadBody _ _;
              ParsedDetails _ _ (read body "details")],
             Gate.Rejected err)
        | Gate.Fulfilled paymentDetails =>
            ([CreatedSigner _ _ (String c key); ReadBody _ _;
              ParsedDetails _ _ (read body "details");
              CalledSettle _ _ signer (read body "payload") paymentDetails],
             match settle _ _ env signer (read body "payload") paymentDetails with
             | Gate.Fulfilled response => Gate.Fulfilled (Gate.mkResponse 200 response)
             | Gate.Rejected err => Gate.Rejected err
             end)
        end).1 ->
    paymentDetailsSchema_parse _ _ env (read body "details") = Gate.Fulfilled details
    /\ wallet = signer /\ payload = read body "payload").
  { destruct (paymentDetailsSchema_parse _ _ env (read body "details"))
      as [paymentDetails | err];
      [intros [[=] | [[=] | [[=] | [[= -> -> ->] | []]]]]; auto
      | intros [[=] | [[=] | [[=] | []]]]]. }
  destruct body; try (intros [[=] | [[=] | []]]);
    intros Hin; destruct (Hparsed Hin) as (Hdetails & -> & ->);
    exists (String c key); eexists; (split; [reflexivity |]);
    (split; [discriminate |]); (split; [assumption |]); (split; [reflexivity |]);
    (split; [assumption |]); (split; [reflexivity |]); rewrite Hdetails; split; reflexivity.
Qed.

End Route.

(** X20, [settle_follows_parsing], on the sample request. *)
Lemma settle_follows_parsing_witness :
  exists privateKey body,
    PRIVATE_KEY _ _ settling = Some privateKey
    /\ privateKey <> EmptyString
    /\ createSignerSepolia _ _ settling privateKey = Gate.Fulfilled "0x0123"%string
    /\ req_json _ _ settling = Gate.Fulfilled body
    /\ paymentDetailsSchema_parse _ _ settling (read body "details")
       = Gate.Fulfilled (@Gate.paymentDetailsRequired Node.platform)
    /\ Some (JStr Node.paid_header) = read body "payload"
    /\ length (filter (fun step => is_settle_step _ _ step = true)
                 (@POST Node.platform string JValue settling).1) = 1%nat
    /\ (@POST Node.platform string JValue settling).2
       = match settle _ _ settling "0x0123"%string (Some (JStr Node.paid_header))
                 (@Gate.paymentDetailsRequired Node.platform) with
         | Gate.Fulfilled response => Gate.Fulfilled (Gate.mkResponse 200 response)
         | Gate.Rejected err => Gate.Rejected err
         end.
Proof.
  apply (@settle_follows_parsing Node.platform string JValue settling).
  right. right. right. left. reflexivity.
Defined.

(** X19, [missing_key_is_configuration_error], on a server without its key. *)
Lemma missing_key_is_configuration_error_witness :
  @POST Node.platform string JValue
    (mkEnv _ _ None (createSignerSepolia _ _ settling) (req_json _ _ settling)
       (paymentDetailsSchema_parse _ _ settling) (settle _ _ settling))
  = ([LoggedError _ _ "PRIVATE_KEY environment variable is not set."],
     Gate.Fulfilled
       (Gate.mkResponse 500
          (JObj [("error", JStr "Server configuration error: Missing private key.")]))).
Proof.
  apply (proj1 (proj2 (@missing_key_is_configuration_error Node.platform string JValue _))).
  left. reflexivity.
Defined.

End SettleRouteProofs.
